(** * Risk-model training pipeline and scoring engine

    A shallow embedding of [scripts/train_risk_model.py], of the
    scoring-engine contract that consumes its output, and of the release
    check [scripts/auto_confirm.py].

    Conventions of the embedding
    - a pandas [Series] of numbers is a [list float] (IEEE-754 binary64, as
      numpy's float64), a [DataFrame] is the ordered list of its named
      columns;
    - a Python [dict] is an insertion-ordered association list with unique
      keys ([dict_set] overwrites in place), a Python [set] is a [gset];
    - a function that can raise returns [Exception + A]; the script's
      printing and file writing go through the [IO] monad over a [World]
      (standard output, directories, files); making a directory and writing
      a file do not fail; in the first part the standard output can encode
      every message, the last part on the training script lifts that;
    - pandas, numpy and scikit-learn are not part of the repository: what the
      script calls from them is a field of the record [Library], and the
      randomness those calls draw when they are given no seed is the
      [Entropy] argument of the field. *)

From Stdlib Require Import ZArith Floats Lia.
From stdpp Require Import base option list gmap sets strings.

Local Open Scope string_scope.
Local Open Scope list_scope.

(* Decimal literals such as 0.9 denote the nearest binary64 value, as they do
   in Python. *)
#[local] Set Warnings "-inexact-float,-clear-no-such-hyp".

(** ** Python values *)

Abbreviation Series := (list float).
Abbreviation DataFrame := (list (string * list float)).

Definition columns (df : DataFrame) : list string := df.*1.

(** [len(df)]: the number of rows. *)
Definition nrows (df : DataFrame) : nat :=
  match df with
  | [] => 0
  | (_, s) :: _ => length s
  end.

Inductive Exception :=
  (** [ValueError(f"Missing required columns: {missing_cols}")] *)
  | MissingRequiredColumns (missing_cols : gset string)
  | KeyError (key : string)
  | IndexError
  (** anything raised inside pandas, numpy or scikit-learn *)
  | LibraryError (what : string)
  (** raised by [print] on a standard output that cannot encode the text *)
  | UnicodeEncodeError.

Abbreviation Result A := (Exception + A)%type.

(** [df[name]] *)
Fixpoint getitem (df : DataFrame) (name : string) : Result Series :=
  match df with
  | [] => inl (KeyError name)
  | (c, s) :: df' => if decide (c = name) then inr s else getitem df' name
  end.

(** [df[names]]: the named columns, in the order of [names]. *)
Fixpoint getitems (df : DataFrame) (names : list string) : Result DataFrame :=
  match names with
  | [] => inr []
  | n :: names' =>
      match getitem df n with
      | inl e => inl e
      | inr s =>
          match getitems df names' with
          | inl e => inl e
          | inr rest => inr ((n, s) :: rest)
          end
      end
  end.

(** [Series.sum()]: missing values (NaN) are skipped. *)
Definition series_sum (s : Series) : float :=
  foldl (fun acc x => if PrimFloat.is_nan x then acc else (acc + x)%float)
        0%float s.

(** ** Python dictionaries *)

Section Dict.
Context {V : Type}.

Definition dict := list (string * V).

(** [d[k] = v] *)
Fixpoint dict_set (k : string) (v : V) (d : dict) : dict :=
  match d with
  | [] => [(k, v)]
  | (k', v') :: d' =>
      if decide (k = k') then (k, v) :: d' else (k', v') :: dict_set k v d'
  end.

(** [dict(pairs)] and [{k: v for k, v in pairs}] *)
Definition dict_of (pairs : list (string * V)) : dict :=
  foldl (fun d kv => dict_set kv.1 kv.2 d) [] pairs.

Fixpoint dict_get (d : dict) (k : string) : option V :=
  match d with
  | [] => None
  | (k', v) :: d' => if decide (k = k') then Some v else dict_get d' k
  end.

Definition keys (d : dict) : list string := d.*1.
End Dict.
Arguments dict V : clear implicits.

(** [{k: f(v) for k, v in d.items()}] *)
Definition dict_map {V W} (f : V -> W) (d : dict V) : dict W :=
  dict_of (map (fun kv => (kv.1, f kv.2)) d).

(** ** numpy *)

(** The index of the first [True] of a boolean array, if there is one. *)
Fixpoint first_true (bs : list bool) : option nat :=
  match bs with
  | [] => None
  | true :: _ => Some 0
  | false :: bs' => S <$> first_true bs'
  end.

(** [np.argmax] of a boolean array: the first occurrence of the maximum, so
    the index of the first [True], and [0] when every entry is [False]; an
    empty array has no argmax. *)
Definition argmax (bs : list bool) : Result nat :=
  match bs with
  | [] => inl (LibraryError "attempt to get argmax of an empty sequence")
  | _ => inr (default 0 (first_true bs))
  end.

(** [a[i]] for [0 <= i] and [a[-1]] *)
Definition index {A} (a : list A) (i : nat) : Result A :=
  match a !! i with
  | Some x => inr x
  | None => inl IndexError
  end.

Definition index_last {A} (a : list A) : Result A :=
  match last a with
  | Some x => inr x
  | None => inl IndexError
  end.

(** ** The libraries the script calls *)

Abbreviation Entropy := Z.

(** [LogisticRegression(penalty, C, solver, max_iter, random_state)] *)
Record LogisticRegression := {
  penalty : string;
  C : float;
  solver : string;
  max_iter : Z;
  random_state : option Z
}.

(** The estimator after [fit]: [coef_] has one row per decision function,
    [intercept_] one entry per row. *)
Record Fitted := {
  estimator : LogisticRegression;
  coef_ : list (list float);
  intercept_ : list float
}.

Record Library := {
  (** [train_test_split(X, y, test_size, random_state, stratify)], returning
      [X_train, X_test, y_train, y_test] *)
  train_test_split :
    Entropy -> DataFrame -> Series -> float -> option Z -> option Series ->
    Result (DataFrame * DataFrame * Series * Series);
  (** [model.fit(X, y)] *)
  fit : Entropy -> LogisticRegression -> DataFrame -> Series -> Result Fitted;
  predict : Fitted -> DataFrame -> Result Series;
  predict_proba : Fitted -> DataFrame -> Result (list (list float));
  roc_auc_score : Series -> Series -> Result float;
  (** [cross_val_score(model, X, y, cv, scoring)] *)
  cross_val_score :
    Entropy -> Fitted -> DataFrame -> Series -> nat -> string ->
    Result (list float);
  (** returning [precision, recall, thresholds] *)
  precision_recall_curve :
    Series -> Series -> Result (list float * list float * list float);
  classification_report : Series -> Series -> list string -> Result string;
  confusion_matrix : Series -> Series -> Result (list (list Z));
  (** [ndarray.mean()], [ndarray.std()] *)
  mean : list float -> float;
  std : list float -> float
}.

(** What one run of the script finds around it: the randomness unseeded
    library calls draw from, the clock, and the files [pd.read_csv] reads. *)
Record Env := {
  entropy : Entropy;
  timestamp_now : string;
  read_csv : string -> Result DataFrame
}.

(** ** Output of the script *)

Record ModelData := {
  weights : dict float;
  intercept : float;
  threshold : float
}.

Record Metrics := {
  auc_roc : float;
  cv_mean : float;
  cv_std : float;
  precision_at_90_recall : float;
  training_date : string;
  feature_importance : dict float
}.

(** A file written by [json.dump]. *)
Inductive Document :=
  | WeightsDocument (model_data : ModelData)
  | MetricsDocument (metrics : Metrics).

(** One constructor per [print] call of the script (consecutive calls that
    print one table share a constructor); numbers are kept as numbers. *)
Inductive Line :=
  | LoadingData (filepath : string)
  | LoadedSamples (n : nat) (rug_pulls legitimate : float)
  | TrainingModel
  | ModelPerformance (auc cv_mean two_cv_std p90 : float)
  | ClassificationReport (report : string)
  | ConfusionMatrix (matrix : list (list Z))
  | TopFeatures (top : list (string * float))
  | WarningBelowThreshold
  | ConsiderMoreData
  | MeetsRequirements
  | WeightsSaved (dir file : string)
  | MetricsSaved (dir file : string)
  | TrainingComplete
  | IntegrationSteps (output : string)
  | ErrorLine (e : Exception).

Record World := {
  stdout : list Line;
  dirs : gset string;
  files : gmap (string * string) Document
}.

(** ** The monad of the script: exceptions over a world *)

Definition IO (A : Type) : Type := World -> Result A * World.

#[export] Instance IO_ret : MRet IO := fun A x w => (inr x, w).
#[export] Instance IO_bind : MBind IO := fun A B f m w =>
  match m w with
  | (inl e, w') => (inl e, w')
  | (inr x, w') => f x w'
  end.

Definition raise {A} (e : Exception) : IO A := fun w => (inl e, w).

(** A call that returns or raises and touches nothing else. *)
Definition call {A} (r : Result A) : IO A := fun w => (r, w).

Definition print (l : Line) : IO unit := fun w =>
  (inr (), {| stdout := stdout w ++ [l]; dirs := dirs w; files := files w |}).

(** [output_dir.mkdir(parents=True, exist_ok=True)] *)
Definition mkdir (d : string) : IO unit := fun w =>
  (inr (), {| stdout := stdout w; dirs := {[ d ]} ∪ dirs w; files := files w |}).

(** [with open(dir / file, 'w') as f: json.dump(doc, f, indent=2)] *)
Definition json_dump (doc : Document) (dir file : string) : IO unit := fun w =>
  (inr (), {| stdout := stdout w; dirs := dirs w;
              files := <[(dir, file) := doc]> (files w) |}).

(** ** scripts/train_risk_model.py *)

Definition required_cols : list string :=
  [ "gini_coefficient"; "top_10_percentage"; "total_holders";
    "liquidity_usd"; "has_mint_authority"; "has_freeze_authority";
    "verified"; "audited"; "community_trust_score"; "sentiment_score";
    "token_age_days"; "volume_24h"; "price_volatility"; "is_rug_pull" ].

(** [required_cols[:-1]] *)
Definition feature_cols : list string :=
  take (length required_cols - 1) required_cols.

(** The dictionary [train_model] returns. *)
Module Results.
Record t := {
  model : Fitted;
  auc_roc : float;
  cv_scores : list float;
  precision_at_90_recall : float;
  X_test : DataFrame;
  y_test : Series;
  y_pred_proba : Series;
  feature_importance : dict float
}.
End Results.

Record Args := {
  data : string;
  output : string;
  test_size : float
}.

(** [sorted(items, key=lambda x: x[1], reverse=True)]: stable, largest
    first. *)
Fixpoint insert_desc (x : string * float) (l : list (string * float)) :
  list (string * float) :=
  match l with
  | [] => [x]
  | y :: l' => if (x.2 <? y.2)%float then y :: insert_desc x l' else x :: l
  end.

Definition sorted_desc (items : list (string * float)) :
  list (string * float) :=
  foldr insert_desc [] items.

(** [idx_90_recall = np.argmax(recall >= 0.9)] and the selection of
    [precision_at_90_recall] that follows it in [train_model]. *)
Definition select_precision_at_90_recall (precision recall : list float) :
  Result float :=
  match argmax (map (fun r => (0.9 <=? r)%float) recall) with
  | inl e => inl e
  | inr idx_90_recall =>
      if decide (idx_90_recall < length precision)
      then index precision idx_90_recall
      else index_last precision
  end.

Section Script.
Variable lib : Library.
Variable env : Env.

Definition load_data (filepath : string) : IO (DataFrame * Series) :=
  print (LoadingData filepath) ;;
  df ← call (read_csv env filepath);
  let missing_cols : gset string :=
    list_to_set required_cols ∖ list_to_set (columns df) in
  if decide (missing_cols ≠ ∅) then raise (MissingRequiredColumns missing_cols)
  else
    X ← call (getitems df feature_cols);
    y ← call (getitem df "is_rug_pull");
    print (LoadedSamples (nrows df) (series_sum y)
             (PrimFloat.of_uint63 (Uint63.of_Z (Z.of_nat (length y)))
              - series_sum y)%float) ;;
    mret (X, y).

Definition train_model (X : DataFrame) (y : Series) (test_size : float) :
  IO Results.t :=
  print TrainingModel ;;
  '(X_train, X_test, y_train, y_test) ←
    call (train_test_split lib (entropy env) X y test_size (Some 42%Z) (Some y));
  model ← call (fit lib (entropy env)
                  {| penalty := "l2"; C := 1.0%float; solver := "lbfgs";
                     max_iter := 1000; random_state := Some 42%Z |}
                  X_train y_train);
  y_pred ← call (predict lib model X_test);
  proba ← call (predict_proba lib model X_test);
  y_pred_proba ← call (from_option inr (inl IndexError)
                         (mapM (fun row => row !! 1) proba));
  auc_score ← call (roc_auc_score lib y_test y_pred_proba);
  cv_scores ← call (cross_val_score lib (entropy env) model X_train y_train
                      5 "roc_auc");
  '(precision, recall, thresholds) ←
    call (precision_recall_curve lib y_test y_pred_proba);
  precision_at_90_recall ←
    call (select_precision_at_90_recall precision recall);
  print (ModelPerformance auc_score (mean lib cv_scores)
           (std lib cv_scores * 2)%float precision_at_90_recall) ;;
  report ← call (classification_report lib y_test y_pred
                   ["Legitimate"; "Rug Pull"]);
  print (ClassificationReport report) ;;
  matrix ← call (confusion_matrix lib y_test y_pred);
  print (ConfusionMatrix matrix) ;;
  coef ← call (index (coef_ model) 0);
  let feature_importance := dict_of (zip (columns X) (map PrimFloat.abs coef)) in
  let sorted_features := sorted_desc feature_importance in
  print (TopFeatures (take 5 sorted_features)) ;;
  mret {| Results.model := model;
          Results.auc_roc := auc_score;
          Results.cv_scores := cv_scores;
          Results.precision_at_90_recall := precision_at_90_recall;
          Results.X_test := X_test;
          Results.y_test := y_test;
          Results.y_pred_proba := y_pred_proba;
          Results.feature_importance := feature_importance |}.

Definition export_model (results : Results.t) (X : DataFrame)
  (output_dir : string) : IO unit :=
  mkdir output_dir ;;
  let model := Results.model results in
  coef ← call (index (coef_ model) 0);
  let weights := dict_of (zip (columns X) coef) in
  intercept ← call (index (intercept_ model) 0);
  let scaled_weights := dict_map (fun v => v * 100.0)%float weights in
  let scaled_intercept := (intercept * 100.0)%float in
  let model_data :=
    {| weights := scaled_weights;
       intercept := scaled_intercept;
       threshold := 0.5%float |} in
  json_dump (WeightsDocument model_data) output_dir "model_weights.json" ;;
  print (WeightsSaved output_dir "model_weights.json") ;;
  let metrics :=
    {| auc_roc := Results.auc_roc results;
       cv_mean := mean lib (Results.cv_scores results);
       cv_std := std lib (Results.cv_scores results);
       precision_at_90_recall := Results.precision_at_90_recall results;
       training_date := timestamp_now env;
       feature_importance :=
         dict_map (fun v => v) (Results.feature_importance results) |} in
  json_dump (MetricsDocument metrics) output_dir "model_metrics.json" ;;
  print (MetricsSaved output_dir "model_metrics.json").

(** The body of the [try] block of [main]. *)
Definition main_try (args : Args) : IO unit :=
  '(X, y) ← load_data (data args);
  results ← train_model X y (test_size args);
  (if (Results.auc_roc results <? 0.75)%float then
     print WarningBelowThreshold ;;
     print ConsiderMoreData
   else if (0.85 <=? Results.auc_roc results)%float then
     print MeetsRequirements
   else mret ()) ;;
  export_model results X (output args) ;;
  print TrainingComplete ;;
  print (IntegrationSteps (output args)).

(** [main()], from the parsed arguments to the exit status of the
    process. *)
Definition main (args : Args) (w : World) : Z * World :=
  match main_try args w with
  | (inr _, w') => (0%Z, w')
  | (inl e, w') =>
      (1%Z, {| stdout := stdout w' ++ [ErrorLine e];
               dirs := dirs w'; files := files w' |})
  end.
End Script.

(** ** Reasoning about the monad *)

Lemma bind_inr {A B} (m : IO A) (k : A -> IO B) w r w' :
  (m ≫= k) w = (inr r, w') ->
  exists x w1, m w = (inr x, w1) /\ k x w1 = (inr r, w').
Proof.
  unfold mbind, IO_bind. destruct (m w) as [[e|x] w1]; [discriminate|eauto].
Qed.

Lemma bind_step {A B} (m : IO A) (k : A -> IO B) w x w1 :
  m w = (inr x, w1) -> (m ≫= k) w = k x w1.
Proof. unfold mbind, IO_bind. by intros ->. Qed.

Lemma bind_raise {A B} (m : IO A) (k : A -> IO B) w e w1 :
  m w = (inl e, w1) -> (m ≫= k) w = (inl e, w1).
Proof. unfold mbind, IO_bind. by intros ->. Qed.

Lemma bind_ext {A B} (m m' : IO A) (k k' : A -> IO B) w :
  m w = m' w ->
  (forall x w1, m w = (inr x, w1) -> k x w1 = k' x w1) ->
  (m ≫= k) w = (m' ≫= k') w.
Proof.
  intros Hm Hk. unfold mbind, IO_bind. rewrite <- Hm.
  destruct (m w) as [[e|x] w1]; [done|]. by apply Hk.
Qed.

Lemma call_inr {A} (r : Result A) w x w' :
  call r w = (inr x, w') -> r = inr x /\ w' = w.
Proof. unfold call. by intros [= -> ->]. Qed.

(** ** Reasoning about dictionaries *)

Lemma dict_set_fresh {V} k (v : V) d :
  k ∉ keys d -> dict_set k v d = d ++ [(k, v)].
Proof.
  induction d as [|[k' v'] d IH]; simpl; [done|].
  intros Hk. apply not_elem_of_cons in Hk as [Hne Hk].
  rewrite decide_False by done. by rewrite IH.
Qed.

Lemma dict_of_acc {V} (acc pairs : list (string * V)) :
  NoDup (keys acc ++ keys pairs) ->
  foldl (fun d kv => dict_set kv.1 kv.2 d) acc pairs = acc ++ pairs.
Proof.
  revert acc. induction pairs as [|[k v] pairs IH]; intros acc Hnd; simpl.
  - by rewrite app_nil_r.
  - unfold keys in *. simpl in Hnd.
    rewrite dict_set_fresh.
    + rewrite IH; [by rewrite <- app_assoc|].
      rewrite fmap_app, <- app_assoc. done.
    + apply NoDup_app in Hnd as (_ & Hd & _).
      intros Hin. apply (Hd k Hin). left.
Qed.

(** Building a dictionary from pairs with distinct keys keeps them as they
    are, in order. *)
Lemma dict_of_NoDup {V} (pairs : list (string * V)) :
  NoDup (keys pairs) -> dict_of pairs = pairs.
Proof. intros Hnd. unfold dict_of. by rewrite dict_of_acc. Qed.

Lemma dict_map_NoDup {V W} (f : V -> W) (d : dict V) :
  NoDup (keys d) -> dict_map f d = map (fun kv => (kv.1, f kv.2)) d.
Proof.
  intros Hnd. unfold dict_map. apply dict_of_NoDup.
  unfold keys in *. by rewrite <- list_fmap_compose.
Qed.

Lemma keys_zip {V} (ks : list string) (vs : list V) :
  keys (zip ks vs) = take (length vs) ks.
Proof.
  unfold keys. revert vs. induction ks as [|k ks IH]; intros [|v vs]; simpl; try done.
  by rewrite IH.
Qed.

Lemma dict_get_lookup {V} (ks : list string) (vs : list V) i k v :
  NoDup ks -> ks !! i = Some k -> vs !! i = Some v ->
  dict_get (zip ks vs) k = Some v.
Proof.
  revert vs i. induction ks as [|k0 ks IH]; intros [|v0 vs] [|i] Hnd Hk Hv;
    simplify_eq/=.
  - by rewrite decide_True.
  - apply NoDup_cons in Hnd as [Hnotin Hnd].
    rewrite decide_False; [by eapply IH|].
    intros ->. apply Hnotin. by eapply list_elem_of_lookup_2.
Qed.

Lemma dict_get_Some_zip {V} (ks : list string) (vs : list V) k v :
  dict_get (zip ks vs) k = Some v ->
  exists i, ks !! i = Some k /\ vs !! i = Some v.
Proof.
  revert vs. induction ks as [|k0 ks IH]; intros [|v0 vs] H; simplify_eq/=.
  destruct (decide (k = k0)) as [->|Hne].
  - exists 0. by simplify_eq.
  - destruct (IH _ H) as (i & ? & ?). by exists (S i).
Qed.

(** ** What a successful step has done *)

Ltac io_inv H :=
  repeat match type of H with
    | (_ ≫= _) _ = (inr _, _) =>
        let x := fresh "x" in
        let w := fresh "w" in
        let Hc := fresh "Hc" in
        apply bind_inr in H as (x & w & Hc & H); simpl in H;
        first [ apply call_inr in Hc as [Hc ->]
              | injection Hc as <- <-
              | idtac ]
    | (let '(_, _) := ?p in _) _ = _ => destruct p
    | (match ?p with (_, _) => _ end) _ = _ => destruct p
    end.

Lemma print_eq l w :
  print l w =
  (inr (), {| stdout := stdout w ++ [l]; dirs := dirs w; files := files w |}).
Proof. done. Qed.

Definition emit (ls : list Line) (w : World) : World :=
  {| stdout := stdout w ++ ls; dirs := dirs w; files := files w |}.

Lemma emit_emit ls ls' w : emit ls' (emit ls w) = emit (ls ++ ls') w.
Proof. unfold emit; simpl. by rewrite <- app_assoc. Qed.

Lemma print_emit l w : print l w = (inr (), emit [l] w).
Proof. done. Qed.

(** ** Column selection *)

Lemma getitem_total (df : DataFrame) name :
  name ∈ columns df -> exists s, getitem df name = inr s.
Proof.
  induction df as [|[c s] df IH]; simpl; [by intros ?%elem_of_nil|].
  intros Hin. destruct (decide (c = name)); [eauto|].
  apply IH. apply elem_of_cons in Hin as [?|?]; [congruence|done].
Qed.

Lemma getitem_columns (df : DataFrame) name s :
  getitem df name = inr s -> name ∈ columns df.
Proof.
  induction df as [|[c s'] df IH]; simpl; [done|].
  destruct (decide (c = name)) as [->|]; [left|right; auto].
Qed.

Lemma getitems_total (df : DataFrame) names :
  (forall c, c ∈ names -> c ∈ columns df) ->
  exists X, getitems df names = inr X.
Proof.
  induction names as [|n names IH]; intros Hall; simpl; [eauto|].
  destruct (getitem_total df n) as [s ->]; [apply Hall; left|].
  destruct IH as [X ->]; [intros; apply Hall; by right|eauto].
Qed.

Lemma getitems_columns (df : DataFrame) names X :
  getitems df names = inr X -> columns X = names.
Proof.
  revert X. induction names as [|n names IH]; intros X; simpl.
  - by intros [= <-].
  - destruct (getitem df n); [done|]. destruct (getitems df names); [done|].
    intros [= <-]. unfold columns in *. simpl. f_equal. by apply IH.
Qed.

Lemma getitems_ext (df1 df2 : DataFrame) names :
  (forall c, c ∈ names -> getitem df1 c = getitem df2 c) ->
  getitems df1 names = getitems df2 names.
Proof.
  induction names as [|n names IH]; intros Hall; simpl; [done|].
  rewrite (Hall n) by left. rewrite IH; [done|]. intros; apply Hall; by right.
Qed.

Lemma feature_cols_required c : c ∈ feature_cols -> c ∈ required_cols.
Proof. unfold feature_cols. apply (subseteq_take _ required_cols). Qed.

Lemma missing_empty_iff (cols : list string) :
  list_to_set required_cols ∖ list_to_set cols =@{gset string} ∅ <->
  ~ exists c, c ∈ required_cols /\ c ∉ cols.
Proof.
  split.
  - intros Hempty (c & Hc & Hn).
    assert (c ∈ (list_to_set required_cols ∖ list_to_set cols : gset string))
      as Hin by set_solver.
    rewrite Hempty in Hin. set_solver.
  - intros Hnone. apply set_eq. intros c. split; [|set_solver].
    intros [Hc Hn]%elem_of_difference. exfalso. apply Hnone. exists c.
    set_solver.
Qed.

Section ScriptFacts.
Variable lib : Library.
Variable env : Env.

Lemma train_model_inv X y ts w res w' :
  train_model lib env X y ts w = (inr res, w') ->
  exists X_train y_train y_pred proba precision recall thresholds
         report matrix coef,
    train_test_split lib (entropy env) X y ts (Some 42%Z) (Some y)
      = inr (X_train, Results.X_test res, y_train, Results.y_test res) /\
    fit lib (entropy env)
      {| penalty := "l2"; C := 1.0%float; solver := "lbfgs";
         max_iter := 1000; random_state := Some 42%Z |} X_train y_train
      = inr (Results.model res) /\
    predict lib (Results.model res) (Results.X_test res) = inr y_pred /\
    predict_proba lib (Results.model res) (Results.X_test res) = inr proba /\
    mapM (fun row => row !! 1) proba = Some (Results.y_pred_proba res) /\
    roc_auc_score lib (Results.y_test res) (Results.y_pred_proba res)
      = inr (Results.auc_roc res) /\
    cross_val_score lib (entropy env) (Results.model res) X_train y_train
      5 "roc_auc" = inr (Results.cv_scores res) /\
    precision_recall_curve lib (Results.y_test res) (Results.y_pred_proba res)
      = inr (precision, recall, thresholds) /\
    select_precision_at_90_recall precision recall
      = inr (Results.precision_at_90_recall res) /\
    classification_report lib (Results.y_test res) y_pred
      ["Legitimate"; "Rug Pull"] = inr report /\
    confusion_matrix lib (Results.y_test res) y_pred = inr matrix /\
    coef_ (Results.model res) !! 0 = Some coef /\
    Results.feature_importance res
      = dict_of (zip (columns X) (map PrimFloat.abs coef)) /\
    w' = emit [ TrainingModel;
                ModelPerformance (Results.auc_roc res)
                  (mean lib (Results.cv_scores res))
                  (std lib (Results.cv_scores res) * 2)%float
                  (Results.precision_at_90_recall res);
                ClassificationReport report;
                ConfusionMatrix matrix;
                TopFeatures (take 5 (sorted_desc (Results.feature_importance res))) ] w.
Proof.
  unfold train_model. intros H. io_inv H.
  injection H as <- <-. simpl.
  destruct (mapM _ _) as [proba1|] eqn:Hproba; simplify_eq/=.
  unfold index in *. destruct (coef_ _ !! 0) as [coef|] eqn:Hcoef; simplify_eq/=.
  eexists _, _, _, _, _, _, _, _, _, _.
  repeat (split; [eassumption || reflexivity|]).
  unfold emit. simpl. by rewrite <- !app_assoc.
Qed.

(** [load_data] on a file that has every required column. *)
Lemma load_data_run filepath df w :
  read_csv env filepath = inr df ->
  (forall c, c ∈ required_cols -> c ∈ columns df) ->
  exists X y,
    getitems df feature_cols = inr X /\
    getitem df "is_rug_pull" = inr y /\
    load_data env filepath w
    = (inr (X, y),
       emit [ LoadingData filepath;
              LoadedSamples (nrows df) (series_sum y)
                (PrimFloat.of_uint63 (Uint63.of_Z (Z.of_nat (length y)))
                 - series_sum y)%float ] w).
Proof.
  intros Hread Hall.
  destruct (getitems_total df feature_cols) as [X HX].
  { intros c Hc. apply Hall. by eapply feature_cols_required. }
  destruct (getitem_total df "is_rug_pull") as [y Hy].
  { apply Hall. by apply (list_elem_of_lookup_2 _ 13). }
  exists X, y. split_and!; [done..|].
  unfold load_data. rewrite (bind_step _ _ _ _ _ (print_emit _ _)).
  rewrite Hread. unfold mbind at 1, IO_bind, call at 1.
  rewrite decide_False.
  2:{ intros Hne. apply Hne, missing_empty_iff. intros (c & Hc & Hn). eauto. }
  rewrite HX, Hy. unfold mbind, IO_bind, call, print, mret, IO_ret, emit; simpl.
  by rewrite <- app_assoc.
Qed.

(** [load_data] on a file that lacks a required column. *)
Lemma load_data_missing filepath df w :
  read_csv env filepath = inr df ->
  list_to_set required_cols ∖ list_to_set (columns df) ≠@{gset string} ∅ ->
  load_data env filepath w
  = (inl (MissingRequiredColumns
            (list_to_set required_cols ∖ list_to_set (columns df))),
     emit [LoadingData filepath] w).
Proof.
  intros Hread Hmiss.
  unfold load_data. rewrite (bind_step _ _ _ _ _ (print_emit _ _)).
  rewrite Hread. unfold mbind at 1, IO_bind, call at 1.
  by rewrite decide_True.
Qed.

Lemma load_data_inv filepath w X y w1 :
  load_data env filepath w = (inr (X, y), w1) ->
  exists df,
    read_csv env filepath = inr df /\
    (forall c, c ∈ required_cols -> c ∈ columns df) /\
    getitems df feature_cols = inr X /\
    getitem df "is_rug_pull" = inr y.
Proof.
  unfold load_data. intros H.
  apply bind_inr in H as (? & w0 & _ & H).
  apply bind_inr in H as (df & ? & [Hread ->]%call_inr & H).
  destruct (decide _) as [|Hmiss]; [discriminate|].
  io_inv H. injection H as <- <- <-. exists df. split_and!; [done| |done..].
  intros c Hin. destruct (decide (c ∈ columns df)) as [|Hn]; [done|].
  exfalso. apply Hmiss. intros Hempty%missing_empty_iff. eauto.
Qed.

(** [export_model] on a fitted model that has a first coefficient row and a
    first intercept. *)
Lemma export_model_run results X output_dir w coef b :
  coef_ (Results.model results) !! 0 = Some coef ->
  intercept_ (Results.model results) !! 0 = Some b ->
  export_model lib env results X output_dir w
  = (inr (),
     {| stdout := stdout w ++ [ WeightsSaved output_dir "model_weights.json";
                                MetricsSaved output_dir "model_metrics.json" ];
        dirs := {[ output_dir ]} ∪ dirs w;
        files :=
          <[(output_dir, "model_metrics.json") :=
              MetricsDocument
                {| auc_roc := Results.auc_roc results;
                   cv_mean := mean lib (Results.cv_scores results);
                   cv_std := std lib (Results.cv_scores results);
                   precision_at_90_recall :=
                     Results.precision_at_90_recall results;
                   training_date := timestamp_now env;
                   feature_importance :=
                     dict_map (fun v => v)
                       (Results.feature_importance results) |}]>
            (<[(output_dir, "model_weights.json") :=
                 WeightsDocument
                   {| weights :=
                        dict_map (fun v => v * 100.0)%float
                          (dict_of (zip (columns X) coef));
                      intercept := (b * 100.0)%float;
                      threshold := 0.5%float |}]> (files w)) |}).
Proof.
  intros Hcoef Hb. unfold export_model, index. rewrite Hcoef, Hb.
  unfold mbind, IO_bind, call, mkdir, json_dump, print; simpl.
  by rewrite <- app_assoc.
Qed.

(** The lines the quality check of [main] prints. *)
Definition gate_lines (auc : float) : list Line :=
  if (auc <? 0.75)%float then [WarningBelowThreshold; ConsiderMoreData]
  else if (0.85 <=? auc)%float then [MeetsRequirements]
  else [].

(** [main] when loading and training succeed and the fitted model has a
    first coefficient row and a first intercept: the check prints its
    lines, the export runs, the process ends with status 0. *)
Lemma main_run args w X y w1 res w2 coef b :
  load_data env (data args) w = (inr (X, y), w1) ->
  train_model lib env X y (test_size args) w1 = (inr res, w2) ->
  coef_ (Results.model res) !! 0 = Some coef ->
  intercept_ (Results.model res) !! 0 = Some b ->
  exists w3,
    export_model lib env res X (output args)
      (emit (gate_lines (Results.auc_roc res)) w2) = (inr (), w3) /\
    main lib env args w
    = (0%Z, emit [TrainingComplete; IntegrationSteps (output args)] w3).
Proof.
  intros Hload Htrain Hcoef Hb.
  eexists. split; [by eapply export_model_run|].
  unfold main, main_try.
  rewrite (bind_step _ _ _ _ _ Hload). simpl.
  rewrite (bind_step _ _ _ _ _ Htrain).
  assert ((if (Results.auc_roc res <? 0.75)%float
           then print WarningBelowThreshold ;; print ConsiderMoreData
           else if (0.85 <=? Results.auc_roc res)%float
                then print MeetsRequirements else mret ()) w2
          = (inr (), emit (gate_lines (Results.auc_roc res)) w2)) as Hgate.
  { unfold gate_lines, emit.
    destruct (_ <? _)%float; [|destruct (_ <=? _)%float].
    - unfold mbind, IO_bind, print; simpl. by rewrite <- app_assoc.
    - done.
    - unfold mret, IO_ret. destruct w2; simpl. by rewrite app_nil_r. }
  rewrite (bind_step _ _ _ _ _ Hgate).
  rewrite (bind_step _ _ _ _ _ (export_model_run _ _ _ _ _ _ Hcoef Hb)).
  unfold mbind, IO_bind, print, emit; simpl. by rewrite <- app_assoc.
Qed.

(** [main] when loading or training raises: the error is printed, the
    process ends with status 1, and the world is otherwise as the failing
    step left it. *)
Lemma main_load_fails args w e w1 :
  load_data env (data args) w = (inl e, w1) ->
  main lib env args w = (1%Z, emit [ErrorLine e] w1).
Proof.
  intros Hload. unfold main, main_try.
  by rewrite (bind_raise _ _ _ _ _ Hload).
Qed.

Lemma main_train_fails args w X y w1 e w2 :
  load_data env (data args) w = (inr (X, y), w1) ->
  train_model lib env X y (test_size args) w1 = (inl e, w2) ->
  main lib env args w = (1%Z, emit [ErrorLine e] w2).
Proof.
  intros Hload Htrain. unfold main, main_try.
  rewrite (bind_step _ _ _ _ _ Hload). simpl.
  by rewrite (bind_raise _ _ _ _ _ Htrain).
Qed.
End ScriptFacts.

(** ** Floating-point comparisons *)

Lemma SFleb_SFltb_finite (m1 m2 : positive) (e0 : Z) (f : spec_float) :
  (m2 < m1)%positive ->
  SFleb (S754_finite false m1 e0) f = true ->
  SFltb f (S754_finite false m2 e0) = false.
Proof.
  intros Hlt.
  destruct f as [s|s| |s m e]; unfold SFleb, SFltb, SFcompare.
  - discriminate.
  - destruct s; [discriminate|reflexivity].
  - reflexivity.
  - destruct s; [discriminate|].
    change (PosDef.Pos.compare_cont Eq) with Pos.compare.
    destruct (Z.compare_spec e0 e) as [He|He|He];
      destruct (Z.compare_spec e e0) as [He'|He'|He']; try lia;
      try discriminate; try reflexivity.
    destruct (Pos.compare_spec m1 m) as [Hm|Hm|Hm];
      destruct (Pos.compare_spec m m2) as [Hm'|Hm'|Hm'];
      try discriminate; try reflexivity; intros _; exfalso; lia.
Qed.

(** A score of at least 0.85 is not below 0.75. *)
Lemma ge_085_not_lt_075 (a : float) :
  (0.85 <=? a)%float = true -> (a <? 0.75)%float = false.
Proof.
  rewrite leb_spec, ltb_spec.
  assert (Prim2SF 0.85 = S754_finite false 7656119366529843 (-53)) as ->
    by (vm_compute; reflexivity).
  assert (Prim2SF 0.75 = S754_finite false 6755399441055744 (-53)) as ->
    by (vm_compute; reflexivity).
  apply SFleb_SFltb_finite. vm_compute. reflexivity.
Qed.

(** ** What the script relies on from scikit-learn *)

(** Shapes: a split keeps the columns of the frame it splits; a fitted model
    has at least one coefficient row, every row has one coefficient per
    column of the training frame, and there is one intercept per row. *)
Record shape_contract (lib : Library) : Prop := {
  split_keeps_columns :
    forall ω X y ts rs st X_train X_test y_train y_test,
      train_test_split lib ω X y ts rs st
        = inr (X_train, X_test, y_train, y_test) ->
      columns X_train = columns X /\ columns X_test = columns X;
  fit_shape :
    forall ω est X y m,
      fit lib ω est X y = inr m ->
      coef_ m <> [] /\
      Forall (fun row => length row = length (columns X)) (coef_ m) /\
      length (intercept_ m) = length (coef_ m)
}.

Lemma NoDup_feature_cols : NoDup feature_cols.
Proof. apply (bool_decide_unpack _). by vm_compute. Qed.

Lemma feature_cols_eq :
  feature_cols =
  [ "gini_coefficient"; "top_10_percentage"; "total_holders";
    "liquidity_usd"; "has_mint_authority"; "has_freeze_authority";
    "verified"; "audited"; "community_trust_score"; "sentiment_score";
    "token_age_days"; "volume_24h"; "price_volatility" ].
Proof. reflexivity. Qed.

(** The first coefficient row and intercept of a model trained by
    [train_model] under the shape contract. *)
Lemma trained_model_shape lib env X y ts w res w' :
  shape_contract lib ->
  train_model lib env X y ts w = (inr res, w') ->
  exists coef b,
    coef_ (Results.model res) !! 0 = Some coef /\
    intercept_ (Results.model res) !! 0 = Some b /\
    length coef = length (columns X).
Proof.
  intros [Hsplit Hfit] Htrain.
  apply train_model_inv in Htrain
    as (X_train & y_train & _ & _ & _ & _ & _ & _ & _ & coef
        & Hs & Hf & _ & _ & _ & _ & _ & _ & _ & _ & _ & Hcoef & _).
  apply Hsplit in Hs as [Hcols _].
  apply Hfit in Hf as (Hne & Hrows & Hlen).
  destruct (intercept_ (Results.model res)) as [|b bs] eqn:Hb.
  { destruct (coef_ (Results.model res)); [done|discriminate]. }
  exists coef, b. split_and!; [done|done|].
  rewrite <- Hcols. eapply (Forall_lookup_1 _ _ 0) in Hrows; [|done]. done.
Qed.

(** The positive class is the label [1]. *)
Definition count_pos (s : Series) : nat :=
  length (filter (fun x => (x =? 1)%float = true) s).

(** [part] holds the share of positive labels of [s], as nearly as a whole
    number of rows can: its number of positives is less than one row away
    from [length part * count_pos s / length s]. *)
Definition stratified (s part : Series) : Prop :=
  (Z.abs (Z.of_nat (count_pos part) * Z.of_nat (length s)
          - Z.of_nat (count_pos s) * Z.of_nat (length part))
   < Z.of_nat (length s))%Z.

#[export] Instance stratified_dec s part : Decision (stratified s part).
Proof. unfold stratified. apply _. Defined.

(** Seeds: a call that is given a seed does not draw from the ambient
    randomness; [fit] keeps the parameters of the estimator it fits
    (cross-validation clones the estimator, seed included). *)
Record seed_contract (lib : Library) : Prop := {
  split_seeded :
    forall ω ω' X y ts seed st,
      train_test_split lib ω X y ts (Some seed) st
      = train_test_split lib ω' X y ts (Some seed) st;
  fit_seeded :
    forall ω ω' est X y,
      is_Some (random_state est) ->
      fit lib ω est X y = fit lib ω' est X y;
  fit_estimator :
    forall ω est X y m, fit lib ω est X y = inr m -> estimator m = est;
  cv_seeded :
    forall ω ω' m X y cv scoring,
      is_Some (random_state (estimator m)) ->
      cross_val_score lib ω m X y cv scoring
      = cross_val_score lib ω' m X y cv scoring
}.

(** Stratification: a split that is given [stratify] returns two parts that
    are [stratified] with respect to it. *)
Record stratify_contract (lib : Library) : Prop := {
  split_stratified :
    forall ω X y ts rs s X_train X_test y_train y_test,
      train_test_split lib ω X y ts rs (Some s)
        = inr (X_train, X_test, y_train, y_test) ->
      stratified s y_train /\ stratified s y_test
}.

(** The curve of [precision_recall_curve]: one point per threshold and a
    final point of recall 0 without threshold; thresholds increase and
    recall does not increase along the curve. *)
Record curve_contract (precision recall thresholds : list float) : Prop := {
  curve_precision_length : length precision = S (length thresholds);
  curve_recall_length : length recall = S (length thresholds);
  curve_thresholds_increase :
    forall i j ti tj,
      i < j -> thresholds !! i = Some ti -> thresholds !! j = Some tj ->
      (ti <? tj)%float = true;
  curve_recall_decreases :
    forall i j ri rj,
      i <= j -> recall !! i = Some ri -> recall !! j = Some rj ->
      (rj <=? ri)%float = true;
  curve_last_recall : recall !! length thresholds = Some 0%float
}.

(** A frame is rectangular: every column has [nrows] entries. *)
Definition rectangular (df : DataFrame) : Prop :=
  Forall (fun cs => length cs.2 = nrows df) df.

(** ** A small library and data set to run the script on *)

Module Demo.
Definition df_rows (f : Series -> Series) (df : DataFrame) : DataFrame :=
  map (fun cs => (cs.1, f cs.2)) df.

Definition of_Z (z : Z) : float := PrimFloat.of_uint63 (Uint63.of_Z z).

(** Rows are rotated by the seed, or by the ambient randomness when there
    is no seed; the first half is the test part. A stratified split that
    would not keep the class shares is refused. *)
Definition split (ω : Entropy) (X : DataFrame) (y : Series) (ts : float)
  (rs : option Z) (st : option Series) :
  Result (DataFrame * DataFrame * Series * Series) :=
  let k := Z.to_nat (Z.abs (default ω rs)) in
  let n_test := length y / 2 in
  let y_train := drop n_test (rotate k y) in
  let y_test := take n_test (rotate k y) in
  if match st with
     | None => true
     | Some s => bool_decide (stratified s y_train)
                 && bool_decide (stratified s y_test)
     end
  then inr (df_rows (fun c => drop n_test (rotate k c)) X,
            df_rows (fun c => take n_test (rotate k c)) X,
            y_train, y_test)
  else inl (LibraryError "the split cannot be stratified").

Definition noise (ω : Entropy) (rs : option Z) : float :=
  match rs with
  | Some _ => 0%float
  | None => of_Z ω
  end.

Definition lib : Library := {|
  train_test_split := split;
  fit ω est X y :=
    inr {| estimator := est;
           coef_ := [map (fun cs => series_sum cs.2) X];
           intercept_ := [(series_sum y + noise ω (random_state est))%float] |};
  predict m X := inr (replicate (nrows X) 1%float);
  predict_proba m X := inr (replicate (nrows X) [0.25; 0.75]%float);
  roc_auc_score y s := inr 0.5%float;
  cross_val_score ω m X y cv scoring :=
    inr (replicate cv (0.5 + noise ω (random_state (estimator m)))%float);
  precision_recall_curve y s := inr ([0.5; 1]%float, [1; 0]%float, [0.75]%float);
  classification_report y p names := inr "report";
  confusion_matrix y p := inr [[0; 1]; [0; 1]]%Z;
  mean l := (foldl PrimFloat.add 0 l / of_Z (Z.of_nat (length l)))%float;
  std l := 0%float
|}.

Definition table : DataFrame :=
  [ ("symbol_id", [1; 2; 3; 4]);
    ("gini_coefficient", [0.9; 0.25; 0.75; 0.5]);
    ("top_10_percentage", [90; 20; 80; 30]);
    ("total_holders", [12; 5000; 40; 900]);
    ("liquidity_usd", [100; 250000; 500; 80000]);
    ("has_mint_authority", [1; 0; 1; 0]);
    ("has_freeze_authority", [1; 0; 0; 0]);
    ("verified", [0; 1; 0; 1]);
    ("audited", [0; 1; 0; 0]);
    ("community_trust_score", [0.125; 0.75; 0.25; 0.5]);
    ("sentiment_score", [0.5; 0.5; 0.25; 0.75]);
    ("token_age_days", [2; 400; 5; 90]);
    ("volume_24h", [1000; 50000; 300; 7000]);
    ("price_volatility", [0.75; 0.125; 0.5; 0.25]);
    ("is_rug_pull", [1; 0; 1; 0]) ]%float.

(** The same data without the liquidity and the label columns. *)
Definition short_table : DataFrame :=
  filter (fun cs => cs.1 ≠ "liquidity_usd" /\ cs.1 ≠ "is_rug_pull") table.

Definition files_on_disk (filepath : string) : Result DataFrame :=
  if decide (filepath = "train.csv") then inr table
  else if decide (filepath = "short.csv") then inr short_table
  else inl (LibraryError "FileNotFoundError").

Definition env : Env :=
  {| entropy := 7; timestamp_now := "2024-05-01T12:00:00";
     read_csv := files_on_disk |}.

(** Another run: other randomness, a later clock, the same files. *)
Definition env' : Env :=
  {| entropy := 1234; timestamp_now := "2024-05-02T08:30:00";
     read_csv := files_on_disk |}.

(** The same features and labels beside other additional columns. *)
Definition other_table : DataFrame :=
  ("listing_rank", [9; 8; 7; 6]%float) :: tail table
    ++ [("holder_growth", [0.5; 0.25; 0.125; 2]%float)].

Definition env_other : Env :=
  {| entropy := 7; timestamp_now := "2024-05-01T12:00:00";
     read_csv filepath :=
       if decide (filepath = "train.csv") then inr other_table
       else inl (LibraryError "FileNotFoundError") |}.

Definition args : Args :=
  {| data := "train.csv"; output := "./model_output/"; test_size := 0.2 |}.

Definition short_args : Args :=
  {| data := "short.csv"; output := "./model_output/"; test_size := 0.2 |}.

Definition start : World := {| stdout := []; dirs := ∅; files := ∅ |}.

Definition loaded : Result (DataFrame * Series) * World :=
  Eval vm_compute in load_data env (data args) start.

Definition X : DataFrame := Eval vm_compute in
  match loaded.1 with inr Xy => Xy.1 | inl _ => [] end.
Definition y : Series := Eval vm_compute in
  match loaded.1 with inr Xy => Xy.2 | inl _ => [] end.

Definition after_loading : World := Eval vm_compute in loaded.2.

Definition trained : Result Results.t * World :=
  Eval vm_compute in train_model lib env X y (test_size args) after_loading.

Definition untrained : Results.t :=
  {| Results.model :=
       {| estimator := {| penalty := "l2"; C := 1; solver := "lbfgs";
                          max_iter := 1000; random_state := None |};
          coef_ := []; intercept_ := [] |};
     Results.auc_roc := 0; Results.cv_scores := [];
     Results.precision_at_90_recall := 0;
     Results.X_test := []; Results.y_test := []; Results.y_pred_proba := [];
     Results.feature_importance := [] |}.

Definition results : Results.t := Eval vm_compute in
  match trained.1 with inr res => res | inl _ => untrained end.

Definition after_training : World := Eval vm_compute in trained.2.
End Demo.

Lemma Demo_columns_df_rows f (df : DataFrame) :
  columns (Demo.df_rows f df) = columns df.
Proof.
  unfold columns, Demo.df_rows. induction df as [|[c s] df IH]; simpl; [done|].
  f_equal. exact IH.
Qed.

Lemma Demo_lib_shape : shape_contract Demo.lib.
Proof.
  split.
  - intros ω X y ts rs st X_train X_test y_train y_test. simpl.
    unfold Demo.split. destruct (match st with None => _ | Some _ => _ end);
      [|discriminate].
    intros [= <- <- <- <-]. by rewrite !Demo_columns_df_rows.
  - intros ω est X y m [= <-]. simpl. split_and!; [done| |done].
    constructor; [|constructor]. unfold columns. by rewrite length_map, length_fmap.
Qed.

Lemma Demo_lib_seed : seed_contract Demo.lib.
Proof.
  split.
  - done.
  - intros ω ω' est X y [seed Hseed]. simpl. by rewrite Hseed.
  - by intros ω est X y m [= <-].
  - intros ω ω' m X y cv scoring [seed Hseed]. simpl. by rewrite Hseed.
Qed.

Lemma Demo_lib_stratify : stratify_contract Demo.lib.
Proof.
  split. intros ω X y ts rs s X_train X_test y_train y_test. simpl.
  unfold Demo.split.
  destruct (bool_decide (stratified s _)) eqn:H1; [|discriminate].
  destruct (bool_decide (stratified s (take _ _))) eqn:H2; [|discriminate].
  intros [= <- <- <- <-].
  split; [exact (bool_decide_eq_true_1 _ H1)|exact (bool_decide_eq_true_1 _ H2)].
Qed.

Lemma Demo_loaded :
  load_data Demo.env (data Demo.args) Demo.start
  = (inr (Demo.X, Demo.y), Demo.after_loading).
Proof. vm_compute. reflexivity. Defined.

Lemma Demo_trained :
  train_model Demo.lib Demo.env Demo.X Demo.y (test_size Demo.args)
    Demo.after_loading = (inr Demo.results, Demo.after_training).
Proof. vm_compute. reflexivity. Defined.

(** * The training pipeline *)

(** Membership of a line in an explicit list of lines. *)
Ltac line_in :=
  rewrite ?elem_of_app, ?elem_of_cons, ?elem_of_nil; naive_solver.

Lemma map_zip_snd {V W} (f : V -> W) (ks : list string) (vs : list V) :
  map (fun kv => (kv.1, f kv.2)) (zip ks vs) = zip ks (map f vs).
Proof.
  revert vs. induction ks as [|k ks IH]; intros [|v vs]; simpl; try done.
  by rewrite IH.
Qed.

(** The weights [export_model] writes for a frame whose columns are the
    feature columns: the features zipped with the scaled coefficients. *)
Lemma scaled_weights_zip (X : DataFrame) (coef : list float) :
  columns X = feature_cols ->
  dict_map (fun v => v * 100.0)%float (dict_of (zip (columns X) coef))
  = zip feature_cols (map (fun v => v * 100.0)%float coef).
Proof.
  intros ->.
  assert (NoDup (keys (zip feature_cols coef))) as Hnd.
  { rewrite keys_zip.
    eapply sublist_NoDup; [apply NoDup_feature_cols|apply sublist_take]. }
  rewrite (dict_of_NoDup _ Hnd), (dict_map_NoDup _ _ Hnd).
  apply (map_zip_snd (fun v => v * 100.0)%float).
Qed.

Lemma load_data_columns env filepath w X y w1 :
  load_data env filepath w = (inr (X, y), w1) -> columns X = feature_cols.
Proof.
  intros (df & _ & _ & HX & _)%load_data_inv. by eapply getitems_columns.
Qed.

(** C1. When loading and training succeed (a valid data set with both
    classes, as scikit-learn accepts it), [main] ends with status 0 and the
    weights document it has written has exactly the thirteen features of the
    schema as the keys of [weights], in the order of the schema: none is
    missing, none is added, and the label column is not among them. *)
Theorem weights_keys_are_feature_schema
  (lib : Library) (env : Env) (args : Args) (w w1 w2 : World)
  (X : DataFrame) (y : Series) (res : Results.t) :
  shape_contract lib ->
  load_data env (data args) w = (inr (X, y), w1) ->
  train_model lib env X y (test_size args) w1 = (inr res, w2) ->
  exists w' md,
    main lib env args w = (0%Z, w') /\
    files w' !! (output args, "model_weights.json") = Some (WeightsDocument md) /\
    keys (weights md)
    = [ "gini_coefficient"; "top_10_percentage"; "total_holders";
        "liquidity_usd"; "has_mint_authority"; "has_freeze_authority";
        "verified"; "audited"; "community_trust_score"; "sentiment_score";
        "token_age_days"; "volume_24h"; "price_volatility" ] /\
    "is_rug_pull" ∉ keys (weights md).
Proof.
  intros Hshape Hload Htrain.
  pose proof (load_data_columns _ _ _ _ _ _ Hload) as Hcols.
  destruct (trained_model_shape _ _ _ _ _ _ _ _ Hshape Htrain)
    as (coef & b & Hcoef & Hb & Hlen).
  destruct (main_run lib env args w X y w1 res w2 coef b Hload Htrain Hcoef Hb)
    as (w3 & Hexport & Hmain).
  rewrite (export_model_run lib env _ _ _ _ _ _ Hcoef Hb) in Hexport.
  injection Hexport as <-.
  eexists _, _. split; [exact Hmain|]. simpl.
  rewrite lookup_insert_ne by done. rewrite lookup_insert_eq.
  split; [reflexivity|]. simpl.
  rewrite (scaled_weights_zip _ _ Hcols), keys_zip, length_map, Hlen, Hcols.
  rewrite take_ge by done. rewrite <- feature_cols_eq.
  split; [done|]. apply (bool_decide_unpack _). by vm_compute.
Qed.

Lemma weights_keys_are_feature_schema_witness :
  exists w' md,
    main Demo.lib Demo.env Demo.args Demo.start = (0%Z, w') /\
    files w' !! (output Demo.args, "model_weights.json")
      = Some (WeightsDocument md) /\
    keys (weights md)
    = [ "gini_coefficient"; "top_10_percentage"; "total_holders";
        "liquidity_usd"; "has_mint_authority"; "has_freeze_authority";
        "verified"; "audited"; "community_trust_score"; "sentiment_score";
        "token_age_days"; "volume_24h"; "price_volatility" ] /\
    "is_rug_pull" ∉ keys (weights md).
Proof.
  exact (weights_keys_are_feature_schema Demo.lib Demo.env Demo.args
           Demo.start Demo.after_loading Demo.after_training
           Demo.X Demo.y Demo.results
           Demo_lib_shape Demo_loaded Demo_trained).
Defined.

(** C2. Whatever the results of training are (any metrics, any coefficients),
    [export_model] writes a weights document in which the weight of every
    feature is its coefficient times 100.0, there is no other weight, the
    intercept is the model's intercept times 100.0, and [threshold] is
    0.5. *)
Theorem export_scales_by_100_and_fixes_threshold
  (lib : Library) (env : Env) (args : Args) (w w1 w2 : World)
  (X : DataFrame) (y : Series) (res : Results.t) (coef : list float) (b : float) :
  load_data env (data args) w = (inr (X, y), w1) ->
  coef_ (Results.model res) !! 0 = Some coef ->
  intercept_ (Results.model res) !! 0 = Some b ->
  exists w3 md,
    export_model lib env res X (output args) w2 = (inr (), w3) /\
    files w3 !! (output args, "model_weights.json") = Some (WeightsDocument md) /\
    (forall i f c,
        feature_cols !! i = Some f -> coef !! i = Some c ->
        dict_get (weights md) f = Some (c * 100.0)%float) /\
    (forall f v,
        dict_get (weights md) f = Some v ->
        exists i c, feature_cols !! i = Some f /\ coef !! i = Some c /\
                    v = (c * 100.0)%float) /\
    intercept md = (b * 100.0)%float /\
    threshold md = 0.5%float.
Proof.
  intros Hload Hcoef Hb.
  pose proof (load_data_columns _ _ _ _ _ _ Hload) as Hcols.
  eexists _, _. split; [by apply export_model_run|]. simpl.
  rewrite lookup_insert_ne by done. rewrite lookup_insert_eq.
  split; [reflexivity|]. simpl. rewrite (scaled_weights_zip _ _ Hcols).
  split_and!; [| |done..].
  - intros i f c Hf Hc. eapply dict_get_lookup; [apply NoDup_feature_cols|done|].
    by rewrite list_lookup_fmap, Hc.
  - intros f v (i & Hf & Hv)%dict_get_Some_zip.
    rewrite list_lookup_fmap in Hv.
    destruct (coef !! i) as [c|] eqn:Hc; [|done].
    injection Hv as <-. eauto.
Qed.

Lemma export_scales_by_100_and_fixes_threshold_witness :
  exists w3 md,
    export_model Demo.lib Demo.env Demo.results Demo.X (output Demo.args)
      Demo.after_training = (inr (), w3) /\
    files w3 !! (output Demo.args, "model_weights.json")
      = Some (WeightsDocument md) /\
    (forall i f c,
        feature_cols !! i = Some f ->
        [1.1499999999999999; 110; 5012; 250100; 1; 1; 1; 1; 0.875; 1; 402;
         51000; 0.875]%float !! i = Some c ->
        dict_get (weights md) f = Some (c * 100.0)%float) /\
    (forall f v,
        dict_get (weights md) f = Some v ->
        exists i c,
          feature_cols !! i = Some f /\
          [1.1499999999999999; 110; 5012; 250100; 1; 1; 1; 1; 0.875; 1; 402;
           51000; 0.875]%float !! i = Some c /\
          v = (c * 100.0)%float) /\
    intercept md = (1 * 100.0)%float /\
    threshold md = 0.5%float.
Proof.
  apply (export_scales_by_100_and_fixes_threshold Demo.lib Demo.env Demo.args
           Demo.start Demo.after_loading Demo.after_training Demo.X Demo.y
           Demo.results).
  - vm_compute. reflexivity.
  - vm_compute. reflexivity.
  - vm_compute. reflexivity.
Defined.

(** The quality check on a standard output that can encode every message
    (the [print] of this model never raises). When loading and training
    succeed, [main] ends with status 0 and both documents are written,
    whatever the test AUC-ROC is (a NaN included); among the lines printed
    after training, the warning appears exactly when the AUC-ROC is below
    0.75 and the confirmation exactly when it is at least 0.85, so that
    neither appears in between. *)
Theorem quality_gate_is_advisory
  (lib : Library) (env : Env) (args : Args) (w w1 w2 : World)
  (X : DataFrame) (y : Series) (res : Results.t) :
  shape_contract lib ->
  load_data env (data args) w = (inr (X, y), w1) ->
  train_model lib env X y (test_size args) w1 = (inr res, w2) ->
  exists w' md mt printed,
    main lib env args w = (0%Z, w') /\
    roc_auc_score lib (Results.y_test res) (Results.y_pred_proba res)
      = inr (Results.auc_roc res) /\
    files w' !! (output args, "model_weights.json") = Some (WeightsDocument md) /\
    files w' !! (output args, "model_metrics.json") = Some (MetricsDocument mt) /\
    stdout w' = stdout w2 ++ printed /\
    (WarningBelowThreshold ∈ printed <->
       (Results.auc_roc res <? 0.75)%float = true) /\
    (MeetsRequirements ∈ printed <->
       (0.85 <=? Results.auc_roc res)%float = true).
Proof.
  intros Hshape Hload Htrain.
  destruct (trained_model_shape _ _ _ _ _ _ _ _ Hshape Htrain)
    as (coef & b & Hcoef & Hb & Hlen).
  destruct (main_run lib env args w X y w1 res w2 coef b Hload Htrain Hcoef Hb)
    as (w3 & Hexport & Hmain).
  rewrite (export_model_run lib env _ _ _ _ _ _ Hcoef Hb) in Hexport.
  injection Hexport as <-.
  apply train_model_inv in Htrain
    as (_ & _ & _ & _ & _ & _ & _ & _ & _ & _
        & _ & _ & _ & _ & _ & Hauc & _).
  eexists _, _, _, _. split; [exact Hmain|]. split; [exact Hauc|]. simpl.
  split; [by rewrite lookup_insert_ne, lookup_insert_eq|].
  split; [by rewrite lookup_insert_eq|].
  split; [by rewrite <- !app_assoc|].
  unfold gate_lines.
  destruct (Results.auc_roc res <? 0.75)%float eqn:Hlow.
  - split; [line_in|]. split; [line_in|].
    intros Hhigh%ge_085_not_lt_075. congruence.
  - destruct (0.85 <=? Results.auc_roc res)%float; split; line_in.
Qed.

Lemma quality_gate_is_advisory_witness :
  exists w' md mt printed,
    main Demo.lib Demo.env Demo.args Demo.start = (0%Z, w') /\
    roc_auc_score Demo.lib (Results.y_test Demo.results)
      (Results.y_pred_proba Demo.results)
      = inr (Results.auc_roc Demo.results) /\
    files w' !! (output Demo.args, "model_weights.json")
      = Some (WeightsDocument md) /\
    files w' !! (output Demo.args, "model_metrics.json")
      = Some (MetricsDocument mt) /\
    stdout w' = stdout Demo.after_training ++ printed /\
    (WarningBelowThreshold ∈ printed <->
       (Results.auc_roc Demo.results <? 0.75)%float = true) /\
    (MeetsRequirements ∈ printed <->
       (0.85 <=? Results.auc_roc Demo.results)%float = true).
Proof.
  exact (quality_gate_is_advisory Demo.lib Demo.env Demo.args
           Demo.start Demo.after_loading Demo.after_training
           Demo.X Demo.y Demo.results
           Demo_lib_shape Demo_loaded Demo_trained).
Defined.

(** C4. When the data set lacks a required column (a feature or the label),
    [main] prints the error that names exactly the required columns that are
    absent and ends with status 1; nothing else is printed, no directory is
    made and no file is written; nothing of the library is called, so the
    outcome is the same with any library. *)
Theorem missing_columns_abort_the_run
  (lib : Library) (env : Env) (args : Args) (w : World) (df : DataFrame) :
  read_csv env (data args) = inr df ->
  (exists c, c ∈ required_cols /\ c ∉ columns df) ->
  exists missing_cols w',
    main lib env args w = (1%Z, w') /\
    stdout w' = stdout w ++ [ LoadingData (data args);
                              ErrorLine (MissingRequiredColumns missing_cols) ] /\
    (forall c, c ∈ missing_cols <-> c ∈ required_cols /\ c ∉ columns df) /\
    dirs w' = dirs w /\
    files w' = files w /\
    (forall lib', main lib' env args w = main lib env args w).
Proof.
  intros Hread Hmissing.
  assert (list_to_set required_cols ∖ list_to_set (columns df) ≠@{gset string} ∅)
    as Hne by (by intros ?%missing_empty_iff).
  pose proof (load_data_missing env _ _ w Hread Hne) as Hload.
  eexists _, _. split; [by apply main_load_fails|]. simpl.
  split; [by rewrite <- app_assoc|].
  split; [set_solver|]. split; [done|]. split; [done|].
  intros lib'. by rewrite !(main_load_fails _ _ _ _ _ _ Hload).
Qed.

Lemma missing_columns_abort_the_run_witness :
  exists missing_cols w',
    main Demo.lib Demo.env Demo.short_args Demo.start = (1%Z, w') /\
    stdout w' = stdout Demo.start
                  ++ [ LoadingData (data Demo.short_args);
                       ErrorLine (MissingRequiredColumns missing_cols) ] /\
    (forall c, c ∈ missing_cols <->
               c ∈ required_cols /\ c ∉ columns Demo.short_table) /\
    dirs w' = dirs Demo.start /\
    files w' = files Demo.start /\
    (forall lib', main lib' Demo.env Demo.short_args Demo.start
                  = main Demo.lib Demo.env Demo.short_args Demo.start).
Proof.
  apply (missing_columns_abort_the_run Demo.lib Demo.env Demo.short_args
           Demo.start Demo.short_table).
  - vm_compute. reflexivity.
  - exists "liquidity_usd". split.
    + apply (bool_decide_unpack _). vm_compute. exact I.
    + apply (bool_decide_unpack _). vm_compute. exact I.
Defined.

(** ** The precision at 90% recall *)

Lemma first_true_Some bs j :
  first_true bs = Some j ->
  bs !! j = Some true /\ forall i, i < j -> bs !! i = Some false.
Proof.
  revert j. induction bs as [|[|] bs IH]; intros j Hj; simplify_eq/=.
  - split; [done|lia].
  - destruct (first_true bs) as [j'|]; simplify_eq/=.
    destruct (IH j' eq_refl) as [Hat Hbefore]. split; [done|].
    intros [|i] Hi; [done|]. apply Hbefore. lia.
Qed.

Lemma first_true_None bs i :
  first_true bs = None -> bs !! i ≠ Some true.
Proof.
  revert i. induction bs as [|[|] bs IH]; intros i Hnone; simplify_eq/=.
  - by destruct i.
  - destruct (first_true bs); simplify_eq/=.
    destruct i as [|i]; [done|]. by apply IH.
Qed.

Lemma first_true_exists bs i :
  bs !! i = Some true -> exists j, first_true bs = Some j /\ j <= i.
Proof.
  intros Hi. destruct (first_true bs) as [j|] eqn:Hj.
  - exists j. split; [done|].
    destruct (first_true_Some _ _ Hj) as [_ Hbefore].
    destruct (decide (j <= i)) as [|Hgt]; [done|].
    rewrite Hbefore in Hi by lia. done.
  - by apply (first_true_None _ i) in Hj.
Qed.

(** The selection when some point of the curve reaches a recall of 0.9: the
    precision at the first such point. *)
Lemma select_first_reaching precision recall j p :
  length precision = length recall ->
  first_true (map (fun r => (0.9 <=? r)%float) recall) = Some j ->
  select_precision_at_90_recall precision recall = inr p ->
  precision !! j = Some p.
Proof.
  intros Hlen Hj. unfold select_precision_at_90_recall, argmax.
  destruct (map _ recall) as [|b bs] eqn:Hbs; [done|].
  rewrite Hj. simpl.
  destruct (decide (j < length precision)) as [_|Hge].
  - unfold index. by destruct (precision !! j); intros [= <-].
  - exfalso. apply Hge. rewrite Hlen.
    apply first_true_Some in Hj as [Hat _].
    apply lookup_lt_Some in Hat. rewrite <- Hbs, length_map in Hat. done.
Qed.

(** The selection when no point reaches it: the precision at the first point
    of the curve. *)
Lemma select_none_reaching precision recall p :
  0 < length precision ->
  first_true (map (fun r => (0.9 <=? r)%float) recall) = None ->
  select_precision_at_90_recall precision recall = inr p ->
  precision !! 0 = Some p.
Proof.
  intros Hlen Hnone. unfold select_precision_at_90_recall, argmax.
  destruct (map _ recall) as [|b bs] eqn:Hbs; [done|].
  rewrite Hnone. simpl.
  rewrite decide_True by done.
  unfold index. by destruct (precision !! 0); intros [= <-].
Qed.

(** C5. The reported [precision_at_90_recall] is read off the
    precision-recall curve of the test part. When some threshold reaches a
    recall of at least 0.9, it is the precision at the smallest such
    threshold (every other such threshold is larger). When none does, it is
    the precision at the first point of the curve, whose recall no point
    exceeds. *)
Theorem precision_at_90_recall_at_smallest_threshold
  (lib : Library) (env : Env) (X : DataFrame) (y : Series) (ts : float)
  (w w' : World) (res : Results.t) :
  (forall y_test proba p r t,
      precision_recall_curve lib y_test proba = inr (p, r, t) ->
      curve_contract p r t) ->
  train_model lib env X y ts w = (inr res, w') ->
  exists precision recall thresholds,
    precision_recall_curve lib (Results.y_test res) (Results.y_pred_proba res)
      = inr (precision, recall, thresholds) /\
    ((exists i ri, i < length thresholds /\ recall !! i = Some ri /\
                   (0.9 <=? ri)%float = true) ->
     exists j tj rj,
       thresholds !! j = Some tj /\ recall !! j = Some rj /\
       (0.9 <=? rj)%float = true /\
       precision !! j = Some (Results.precision_at_90_recall res) /\
       forall i ti ri,
         thresholds !! i = Some ti -> recall !! i = Some ri ->
         (0.9 <=? ri)%float = true -> i <> j -> (tj <? ti)%float = true) /\
    ((forall i ri, i < length thresholds -> recall !! i = Some ri ->
                   (0.9 <=? ri)%float = false) ->
     exists r0,
       recall !! 0 = Some r0 /\
       precision !! 0 = Some (Results.precision_at_90_recall res) /\
       forall i ri, recall !! i = Some ri -> (ri <=? r0)%float = true).
Proof.
  intros Hcurve Htrain.
  apply train_model_inv in Htrain
    as (_ & _ & _ & _ & precision & recall & thresholds & _ & _ & _
        & _ & _ & _ & _ & _ & _ & _ & Hprc & Hsel & _).
  exists precision, recall, thresholds. split; [done|].
  destruct (Hcurve _ _ _ _ _ Hprc) as [Hlp Hlr Hincr Hdecr Hlast].
  set (reaches := map (fun r => (0.9 <=? r)%float) recall) in *.
  assert (forall i b, reaches !! i = Some b <->
            exists ri, recall !! i = Some ri /\ (0.9 <=? ri)%float = b) as Hreach.
  { intros i b. unfold reaches. rewrite list_lookup_fmap.
    destruct (recall !! i); simpl; naive_solver. }
  split.
  - intros (i & ri & Hi & Hri & Hge).
    destruct (first_true_exists reaches i) as (j & Hj & Hji).
    { apply Hreach. eauto. }
    destruct (first_true_Some _ _ Hj) as [Hat Hbefore].
    apply Hreach in Hat as (rj & Hrj & Hgej).
    destruct (lookup_lt_is_Some_2 thresholds j) as [tj Htj]; [lia|].
    exists j, tj, rj. split_and!; [done..| |].
    + eapply (select_first_reaching precision recall); [congruence|done..].
    + intros i' ti' ri' Hti' Hri' Hge' Hne.
      destruct (decide (i' < j)) as [Hlt|Hnlt].
      * specialize (Hbefore i' Hlt). apply Hreach in Hbefore as (? & ? & ?).
        congruence.
      * eapply (Hincr j i'); [lia|done..].
  - intros Hnone.
    assert (first_true reaches = None) as Hft.
    { destruct (first_true reaches) as [j|] eqn:Hj; [|done]. exfalso.
      apply first_true_Some in Hj as [Hat _].
      apply Hreach in Hat as (rj & Hrj & Hgej).
      destruct (decide (j < length thresholds)) as [Hlt|Hnlt].
      - rewrite (Hnone j rj Hlt Hrj) in Hgej. done.
      - apply lookup_lt_Some in Hrj as Hjr.
        assert (j = length thresholds) as -> by lia.
        rewrite Hlast in Hrj. injection Hrj as <-.
        vm_compute in Hgej. done. }
    destruct (lookup_lt_is_Some_2 recall 0) as [r0 Hr0]; [lia|].
    exists r0. split_and!; [done| |].
    + eapply (select_none_reaching precision recall); [lia|done..].
    + intros i ri Hri. eapply (Hdecr 0 i); [lia|done..].
Qed.

Lemma Demo_lib_curve y_test proba p r t :
  precision_recall_curve Demo.lib y_test proba = inr (p, r, t) ->
  curve_contract p r t.
Proof.
  intros [= <- <- <-]. split; [done|done| | |done].
  - intros [|[|i]] [|[|j]] ti tj Hij Hi Hj; simplify_eq/=; lia.
  - intros [|[|i]] [|[|j]] ri rj Hij Hi Hj; simplify_eq/=;
      solve [lia | by vm_compute].
Defined.

Lemma precision_at_90_recall_at_smallest_threshold_witness :
  exists precision recall thresholds,
    precision_recall_curve Demo.lib (Results.y_test Demo.results)
      (Results.y_pred_proba Demo.results)
      = inr (precision, recall, thresholds) /\
    ((exists i ri, i < length thresholds /\ recall !! i = Some ri /\
                   (0.9 <=? ri)%float = true) ->
     exists j tj rj,
       thresholds !! j = Some tj /\ recall !! j = Some rj /\
       (0.9 <=? rj)%float = true /\
       precision !! j = Some (Results.precision_at_90_recall Demo.results) /\
       forall i ti ri,
         thresholds !! i = Some ti -> recall !! i = Some ri ->
         (0.9 <=? ri)%float = true -> i <> j -> (tj <? ti)%float = true) /\
    ((forall i ri, i < length thresholds -> recall !! i = Some ri ->
                   (0.9 <=? ri)%float = false) ->
     exists r0,
       recall !! 0 = Some r0 /\
       precision !! 0 = Some (Results.precision_at_90_recall Demo.results) /\
       forall i ri, recall !! i = Some ri -> (ri <=? r0)%float = true).
Proof.
  exact (precision_at_90_recall_at_smallest_threshold Demo.lib Demo.env
           Demo.X Demo.y (test_size Demo.args)
           Demo.after_loading Demo.after_training Demo.results
           Demo_lib_curve Demo_trained).
Defined.

(** ** Reproducibility *)

Section TwoRuns.
Variable lib : Library.
Variables env1 env2 : Env.
Hypothesis seeds : seed_contract lib.

(** Training does not see the ambient randomness: every call that could
    draw from it is given the seed 42. *)
Lemma train_model_seeded X y ts w :
  train_model lib env1 X y ts w = train_model lib env2 X y ts w.
Proof.
  destruct seeds as [Hsplit Hfit Hest Hcv].
  unfold train_model.
  apply bind_ext; [done|intros [] w0 _].
  apply bind_ext; [unfold call; by rewrite (Hsplit _ (entropy env2))|].
  intros [[[X_train X_test] y_train] y_test] w1 _.
  apply bind_ext.
  { unfold call. by rewrite (Hfit _ (entropy env2)) by (by eexists). }
  intros m w2 [Hm _]%call_inr. apply Hest in Hm.
  do 4 (apply bind_ext; [done|intros ? ? _]).
  apply bind_ext; [|done].
  unfold call. by rewrite (Hcv _ (entropy env2)) by (rewrite Hm; by eexists).
Qed.

Hypothesis same_file : forall filepath,
  read_csv env1 filepath = read_csv env2 filepath.

Lemma load_data_same_file filepath w :
  load_data env1 filepath w = load_data env2 filepath w.
Proof. unfold load_data. by rewrite same_file. Qed.

(** Two worlds that may differ in the metrics document only. *)
Definition same_but_metrics (output_dir : string) (w w' : World) : Prop :=
  stdout w = stdout w' /\ dirs w = dirs w' /\
  forall file, file <> "model_metrics.json" ->
               files w !! (output_dir, file) = files w' !! (output_dir, file).

Lemma export_model_two_runs res X output_dir w :
  (export_model lib env1 res X output_dir w).1
  = (export_model lib env2 res X output_dir w).1 /\
  same_but_metrics output_dir
    (export_model lib env1 res X output_dir w).2
    (export_model lib env2 res X output_dir w).2.
Proof.
  unfold export_model, same_but_metrics, index.
  destruct (coef_ (Results.model res) !! 0) as [coef|];
    [|by unfold mbind, IO_bind, call, mkdir].
  destruct (intercept_ (Results.model res) !! 0) as [b|];
    [|by unfold mbind, IO_bind, call, mkdir].
  unfold mbind, IO_bind, call, mkdir, json_dump, print; simpl.
  split_and!; [done..|].
  intros file Hfile.
  by rewrite !(lookup_insert_ne _ (output_dir, "model_metrics.json")
                 (output_dir, file)) by congruence.
Qed.

Lemma main_try_two_runs args w :
  (main_try lib env1 args w).1 = (main_try lib env2 args w).1 /\
  same_but_metrics (output args)
    (main_try lib env1 args w).2 (main_try lib env2 args w).2.
Proof.
  unfold main_try.
  destruct (load_data env1 (data args) w) as [[e|[X y]] w1] eqn:Hl1;
    pose proof Hl1 as Hl2; rewrite load_data_same_file in Hl2.
  { by rewrite (bind_raise _ _ _ _ _ Hl1), (bind_raise _ _ _ _ _ Hl2). }
  rewrite (bind_step _ _ _ _ _ Hl1), (bind_step _ _ _ _ _ Hl2). simpl.
  destruct (train_model lib env1 X y (test_size args) w1) as [[e|res] w2]
    eqn:Ht1; pose proof Ht1 as Ht2; rewrite train_model_seeded in Ht2.
  { by rewrite (bind_raise _ _ _ _ _ Ht1), (bind_raise _ _ _ _ _ Ht2). }
  rewrite (bind_step _ _ _ _ _ Ht1), (bind_step _ _ _ _ _ Ht2).
  destruct ((if (Results.auc_roc res <? 0.75)%float
             then print WarningBelowThreshold ;; print ConsiderMoreData
             else if (0.85 <=? Results.auc_roc res)%float
                  then print MeetsRequirements else mret ()) w2)
    as [[e|[]] w3] eqn:Hg.
  { by rewrite !(bind_raise _ _ _ _ _ Hg). }
  rewrite !(bind_step _ _ _ _ _ Hg).
  destruct (export_model_two_runs res X (output args) w3)
    as (Hr & Hout & Hdirs & Hfiles).
  destruct (export_model lib env1 res X (output args) w3) as [[e1|[]] w4] eqn:He1,
           (export_model lib env2 res X (output args) w3) as [[e2|[]] w4'] eqn:He2;
    simplify_eq/=.
  - by rewrite (bind_raise _ _ _ _ _ He1), (bind_raise _ _ _ _ _ He2).
  - rewrite (bind_step _ _ _ _ _ He1), (bind_step _ _ _ _ _ He2).
    unfold mbind, IO_bind, print, same_but_metrics; simpl.
    by rewrite Hout, Hdirs.
Qed.

Lemma main_two_runs args w :
  (main lib env1 args w).1 = (main lib env2 args w).1 /\
  same_but_metrics (output args)
    (main lib env1 args w).2 (main lib env2 args w).2.
Proof.
  destruct (main_try_two_runs args w) as (Hr & Hout & Hdirs & Hfiles).
  unfold main.
  destruct (main_try lib env1 args w) as [[e1|[]] w1],
           (main_try lib env2 args w) as [[e2|[]] w2];
    simplify_eq/=; unfold same_but_metrics; simpl; rewrite ?Hout, ?Hdirs; done.
Qed.
End TwoRuns.

(** C6. Two runs on the same files with the same arguments, whatever the
    ambient randomness and the clock of each, train the same model on the
    same split (the whole result of [train_model] is the same), end with the
    same status and the same output, and leave the same weights document.
    The split is the library's split seeded with 42 and stratified by the
    label column, the model is fitted on its training part, and both parts
    keep the share of positive labels of the whole column to within one
    row. *)
Theorem training_is_reproducible
  (lib : Library) (env1 env2 : Env) (args : Args) (w : World) :
  seed_contract lib ->
  stratify_contract lib ->
  (forall filepath, read_csv env1 filepath = read_csv env2 filepath) ->
  (forall X y w0,
      train_model lib env1 X y (test_size args) w0
      = train_model lib env2 X y (test_size args) w0) /\
  (main lib env1 args w).1 = (main lib env2 args w).1 /\
  stdout (main lib env1 args w).2 = stdout (main lib env2 args w).2 /\
  files (main lib env1 args w).2 !! (output args, "model_weights.json")
  = files (main lib env2 args w).2 !! (output args, "model_weights.json") /\
  (forall X y w0 res w1,
      train_model lib env1 X y (test_size args) w0 = (inr res, w1) ->
      exists X_train y_train,
        train_test_split lib (entropy env1) X y (test_size args)
          (Some 42%Z) (Some y)
          = inr (X_train, Results.X_test res, y_train, Results.y_test res) /\
        fit lib (entropy env1)
          {| penalty := "l2"; C := 1.0%float; solver := "lbfgs";
             max_iter := 1000; random_state := Some 42%Z |} X_train y_train
          = inr (Results.model res) /\
        stratified y y_train /\
        stratified y (Results.y_test res)).
Proof.
  intros Hseed [Hstrat] Hfile.
  split; [intros; by apply train_model_seeded|].
  destruct (main_two_runs lib env1 env2 Hseed Hfile args w)
    as (Hstatus & Hout & _ & Hfiles).
  split; [done|]. split; [done|]. split; [by apply Hfiles|].
  intros X y w0 res w1 Htrain.
  apply train_model_inv in Htrain
    as (X_train & y_train & _ & _ & _ & _ & _ & _ & _ & _
        & Hs & Hf & _).
  exists X_train, y_train. split; [done|]. split; [done|].
  by eapply Hstrat.
Qed.

Lemma training_is_reproducible_witness :
  (forall X y w0,
      train_model Demo.lib Demo.env X y (test_size Demo.args) w0
      = train_model Demo.lib Demo.env' X y (test_size Demo.args) w0) /\
  (main Demo.lib Demo.env Demo.args Demo.start).1
  = (main Demo.lib Demo.env' Demo.args Demo.start).1 /\
  stdout (main Demo.lib Demo.env Demo.args Demo.start).2
  = stdout (main Demo.lib Demo.env' Demo.args Demo.start).2 /\
  files (main Demo.lib Demo.env Demo.args Demo.start).2
    !! (output Demo.args, "model_weights.json")
  = files (main Demo.lib Demo.env' Demo.args Demo.start).2
    !! (output Demo.args, "model_weights.json") /\
  (forall X y w0 res w1,
      train_model Demo.lib Demo.env X y (test_size Demo.args) w0
        = (inr res, w1) ->
      exists X_train y_train,
        train_test_split Demo.lib (entropy Demo.env) X y (test_size Demo.args)
          (Some 42%Z) (Some y)
          = inr (X_train, Results.X_test res, y_train, Results.y_test res) /\
        fit Demo.lib (entropy Demo.env)
          {| penalty := "l2"; C := 1.0%float; solver := "lbfgs";
             max_iter := 1000; random_state := Some 42%Z |} X_train y_train
          = inr (Results.model res) /\
        stratified y y_train /\
        stratified y (Results.y_test res)).
Proof.
  apply (training_is_reproducible Demo.lib Demo.env Demo.env' Demo.args
           Demo.start Demo_lib_seed Demo_lib_stratify).
  intros filepath. reflexivity.
Defined.

(** ** Additional columns *)

Lemma getitem_elem_of (df : DataFrame) name s :
  getitem df name = inr s -> (name, s) ∈ df.
Proof.
  induction df as [|[c s'] df IH]; simpl; [done|].
  destruct (decide (c = name)) as [->|]; [intros [= ->]; left|right; auto].
Qed.

Lemma getitem_length (df : DataFrame) name s :
  rectangular df -> getitem df name = inr s -> length s = nrows df.
Proof.
  intros Hrect Hs%getitem_elem_of.
  by apply (proj1 (Forall_forall _ _) Hrect _ Hs).
Qed.

Section TwoFiles.
Variable lib : Library.
Variables env1 env2 : Env.
Hypothesis same_entropy : entropy env1 = entropy env2.
Hypothesis same_clock : timestamp_now env1 = timestamp_now env2.

Lemma train_model_same_entropy X y ts w :
  train_model lib env1 X y ts w = train_model lib env2 X y ts w.
Proof. unfold train_model. by rewrite same_entropy. Qed.

Lemma export_model_same_clock res X output_dir w :
  export_model lib env1 res X output_dir w
  = export_model lib env2 res X output_dir w.
Proof. unfold export_model. by rewrite same_clock. Qed.

Lemma main_same_load args w :
  load_data env1 (data args) w = load_data env2 (data args) w ->
  main lib env1 args w = main lib env2 args w.
Proof.
  intros Hload. unfold main.
  enough (main_try lib env1 args w = main_try lib env2 args w) as -> by done.
  unfold main_try.
  apply bind_ext; [done|intros [X y] w1 _]. simpl.
  apply bind_ext; [apply train_model_same_entropy|intros res w2 _].
  apply bind_ext; [done|intros [] w3 _].
  apply bind_ext; [apply export_model_same_clock|done].
Qed.
End TwoFiles.

(** C10. Two data sets that are rectangular, have every required column and
    agree on each of them, whatever other columns they have: [load_data]
    accepts both and returns the same features (exactly the thirteen feature
    columns) and labels, and with the same randomness and clock the whole run
    has the same outcome: status, printed lines and written documents. *)
Theorem extra_columns_are_ignored
  (lib : Library) (env1 env2 : Env) (args : Args) (w : World)
  (df1 df2 : DataFrame) :
  entropy env1 = entropy env2 ->
  timestamp_now env1 = timestamp_now env2 ->
  read_csv env1 (data args) = inr df1 ->
  read_csv env2 (data args) = inr df2 ->
  rectangular df1 ->
  rectangular df2 ->
  (forall c, c ∈ required_cols ->
             c ∈ columns df1 /\ getitem df1 c = getitem df2 c) ->
  (exists X y w1,
      load_data env1 (data args) w = (inr (X, y), w1) /\
      load_data env2 (data args) w = (inr (X, y), w1) /\
      columns X = feature_cols) /\
  main lib env1 args w = main lib env2 args w.
Proof.
  intros Hent Hclock Hread1 Hread2 Hrect1 Hrect2 Hagree.
  assert (forall c, c ∈ required_cols -> c ∈ columns df1) as Hall1
    by (intros; by apply Hagree).
  assert (forall c, c ∈ required_cols -> c ∈ columns df2) as Hall2.
  { intros c Hc. destruct (Hagree c Hc) as [Hin Heq].
    destruct (getitem_total df1 c Hin) as [s Hs].
    rewrite Heq in Hs. by eapply getitem_columns. }
  destruct (load_data_run env1 _ _ w Hread1 Hall1) as (X & y & HX & Hy & Hl1).
  destruct (load_data_run env2 _ _ w Hread2 Hall2) as (X' & y' & HX' & Hy' & Hl2).
  assert (X' = X) as ->.
  { rewrite (getitems_ext df1 df2) in HX; [congruence|].
    intros c Hc%feature_cols_required. by apply Hagree. }
  assert (y' = y) as ->.
  { destruct (Hagree "is_rug_pull") as [_ Heq];
      [by apply (list_elem_of_lookup_2 _ 13)|]. congruence. }
  assert (nrows df1 = nrows df2) as Hrows.
  { rewrite <- (getitem_length df1 _ _ Hrect1 Hy).
    by rewrite <- (getitem_length df2 _ _ Hrect2 Hy'). }
  rewrite Hrows in Hl1.
  split.
  - exists X, y. eexists. split; [exact Hl1|]. split; [exact Hl2|].
    by eapply getitems_columns.
  - apply main_same_load; [done..|]. by rewrite Hl1, Hl2.
Qed.

Lemma Demo_table_rectangular : rectangular Demo.table.
Proof. apply (bool_decide_unpack _). vm_compute. exact I. Defined.

Lemma Demo_other_table_rectangular : rectangular Demo.other_table.
Proof. apply (bool_decide_unpack _). vm_compute. exact I. Defined.

Lemma Demo_tables_agree c :
  c ∈ required_cols ->
  c ∈ columns Demo.table /\ getitem Demo.table c = getitem Demo.other_table c.
Proof.
  unfold required_cols. rewrite !elem_of_cons, elem_of_nil.
  intros H. repeat (destruct H as [->|H]; [split; [|reflexivity];
    apply (bool_decide_unpack _); vm_compute; exact I|]). done.
Defined.

Lemma extra_columns_are_ignored_witness :
  (exists X y w1,
      load_data Demo.env (data Demo.args) Demo.start = (inr (X, y), w1) /\
      load_data Demo.env_other (data Demo.args) Demo.start = (inr (X, y), w1) /\
      columns X = feature_cols) /\
  main Demo.lib Demo.env Demo.args Demo.start
  = main Demo.lib Demo.env_other Demo.args Demo.start.
Proof.
  apply (extra_columns_are_ignored Demo.lib Demo.env Demo.env_other Demo.args
           Demo.start Demo.table Demo.other_table).
  - reflexivity.
  - reflexivity.
  - vm_compute. reflexivity.
  - vm_compute. reflexivity.
  - exact Demo_table_rectangular.
  - exact Demo_other_table_rectangular.
  - exact Demo_tables_agree.
Defined.


(** * The scoring engine

    The engine that loads the weights document is not among the sources of
    the repository (the script points to [src-tauri/src/ai.rs]); its model
    here follows the contract the specification gives for it. *)

Module Engine.

(** Modelled from the spec: the Feature Schema, "the fixed, ordered list of
    named numeric features a model consumes" (the thirteen names of section
    3, which are the feature columns of the training script). *)
Definition FeatureSchema : list string := feature_cols.

(** Modelled from the spec: the ModelArtifact of section 3,
    [{weights, intercept, threshold, version, metrics, training_timestamp}];
    [weights] is a mapping from feature names to floats. The engine source is
    missing. *)
Record ModelArtifact := {
  weights : gmap string float;
  intercept : float;
  threshold : float;
  version : N;
  metrics : Metrics;
  training_timestamp : string
}.

(** Modelled from the spec: the three validations of section 4.2, which an
    [ArtifactError] names. *)
Inductive ArtifactError :=
  | KeySetMismatch
  | NonFiniteValue
  | ThresholdOutOfRange.

Inductive EngineError :=
  | Artifact (e : ArtifactError)
  | FeatureError (missing : gset string)
  | NoPriorVersionError.

Definition keys_match (a : ModelArtifact) : Prop :=
  dom (weights a) = list_to_set FeatureSchema.

Definition all_finite (a : ModelArtifact) : Prop :=
  map_Forall (fun _ v => PrimFloat.is_finite v = true) (weights a) /\
  PrimFloat.is_finite (intercept a) = true /\
  PrimFloat.is_finite (threshold a) = true.

Definition threshold_in_range (a : ModelArtifact) : Prop :=
  (0 <=? threshold a)%float = true /\ (threshold a <=? 1)%float = true.

#[export] Instance keys_match_dec a : Decision (keys_match a).
Proof. unfold keys_match. apply _. Defined.
#[export] Instance all_finite_dec a : Decision (all_finite a).
Proof. unfold all_finite. apply _. Defined.
#[export] Instance threshold_in_range_dec a : Decision (threshold_in_range a).
Proof. unfold threshold_in_range. apply _. Defined.

(** Modelled from the spec: "Validation on load: reject (fail with
    ArtifactError) if the weights document's key set does not exactly match
    the Feature Schema, if any value is non-finite (NaN/∞), or if threshold
    is outside [0,1]." The checks run in the order of the sentence; [None]
    is acceptance. *)
Definition validate (a : ModelArtifact) : option ArtifactError :=
  if decide (keys_match a) then
    if decide (all_finite a) then
      if decide (threshold_in_range a) then None
      else Some ThresholdOutOfRange
    else Some NonFiniteValue
  else Some KeySetMismatch.

(** What it means that the validation an error names fails on an
    artifact. *)
Definition fails (e : ArtifactError) (a : ModelArtifact) : Prop :=
  match e with
  | KeySetMismatch => ~ keys_match a
  | NonFiniteValue => ~ all_finite a
  | ThresholdOutOfRange => ~ threshold_in_range a
  end.

(** Modelled from the spec: the ScoringEngineState of section 3, "the
    currently active ModelArtifact plus a history slot for the previous
    artifact". *)
Record State := {
  active : ModelArtifact;
  previous : option ModelArtifact
}.

(** Modelled from the spec: "initialized at startup from a bootstrap
    artifact", validated on load; the rollback slot starts empty. *)
Definition startup (bootstrap : ModelArtifact) : EngineError + State :=
  match validate bootstrap with
  | Some e => inl (Artifact e)
  | None => inr {| active := bootstrap; previous := None |}
  end.

(** Modelled from the spec: [reload] of section 4.3: validate as in 4.2; on
    success replace the active artifact, the previous one going to the
    rollback slot; on failure leave the state and tell which validation
    failed. *)
Definition reload (st : State) (newArtifact : ModelArtifact) :
  (EngineError + unit) * State :=
  match validate newArtifact with
  | Some e => (inl (Artifact e), st)
  | None => (inr (), {| active := newArtifact; previous := Some (active st) |})
  end.

(** Modelled from the spec: [rollback] of section 4.3: restore the artifact
    of the rollback slot, or fail with [NoPriorVersionError] when the slot is
    empty; a restored artifact leaves the slot empty (section 8: a second
    rollback with no further reload fails). *)
Definition rollback (st : State) : (EngineError + unit) * State :=
  match previous st with
  | None => (inl NoPriorVersionError, st)
  | Some prior => (inr (), {| active := prior; previous := None |})
  end.

Inductive RiskClass := low | high.

Section Scoring.
(** The logistic squashing function and the display scaling of section 4.3
    (one global policy); neither is fixed by the specification. *)
Variable squash : float -> float.
Variable display : float -> float.

(** One term of the sum: [acc + weight[f] * features[f]]. *)
Definition add_term (a : ModelArtifact) (features : gmap string float)
  (acc : float) (f : string) : float :=
  (acc + default 0 (weights a !! f) * default 0 (features !! f))%float.

(** Modelled from the spec: [raw = intercept + Σ weight[f] * features[f]],
    summed in the order of the schema. *)
Definition raw_score (a : ModelArtifact) (features : gmap string float) : float :=
  foldl (add_term a features) (intercept a) FeatureSchema.

(** Modelled from the spec: the published score is [raw] squashed, in the
    display scale; [risk_class = high] if the probability exceeds the
    threshold. *)
Definition publish (a : ModelArtifact) (raw : float) : float * RiskClass :=
  let probability := squash raw in
  (display probability,
   if (threshold a <? probability)%float then high else low).

(** Modelled from the spec: [score] against one artifact: a feature vector
    that lacks a weighted feature is refused with a [FeatureError] that names
    the missing features. *)
Definition score_with (a : ModelArtifact) (features : gmap string float) :
  EngineError + (float * RiskClass) :=
  let missing := dom (weights a) ∖ dom features in
  if decide (missing = ∅) then inr (publish a (raw_score a features))
  else inl (FeatureError missing).

(** Modelled from the spec: [score] of section 4.3, "a pure function of the
    active artifact and the input vector". *)
Definition score (st : State) (features : gmap string float) :
  EngineError + (float * RiskClass) :=
  score_with (active st) features.
End Scoring.

(** The engine always holds an artifact that passes validation. *)
Definition usable (st : State) : Prop := validate (active st) = None.

End Engine.

(** ** Reload and rollback *)

Lemma Engine_validate_fails a e :
  Engine.validate a = Some e -> Engine.fails e a.
Proof.
  unfold Engine.validate. repeat case_decide; intros [= <-]; done.
Qed.

Lemma Engine_validate_None a :
  Engine.validate a = None <->
  Engine.keys_match a /\ Engine.all_finite a /\ Engine.threshold_in_range a.
Proof.
  unfold Engine.validate. repeat case_decide; naive_solver.
Qed.

Lemma Engine_reload_usable st a :
  Engine.usable st -> Engine.usable (Engine.reload st a).2.
Proof.
  unfold Engine.usable, Engine.reload.
  by destruct (Engine.validate a) eqn:Ha.
Qed.

(** C7. Reloading an artifact that fails a validation of the load (its key
    set is not the schema, a value is not finite, or the threshold is outside
    [0,1]) returns an [ArtifactError] naming a validation that fails on it
    and leaves the state of the engine as it was, so every later [score]
    answers as before; and whatever artifact is offered, an engine that held
    a valid artifact still holds one. *)
Theorem reload_failure_keeps_state
  (squash display : float -> float)
  (st : Engine.State) (newArtifact : Engine.ModelArtifact) :
  ~ Engine.keys_match newArtifact \/ ~ Engine.all_finite newArtifact
    \/ ~ Engine.threshold_in_range newArtifact ->
  (exists e,
      Engine.reload st newArtifact = (inl (Engine.Artifact e), st) /\
      Engine.fails e newArtifact) /\
  (forall features,
      Engine.score squash display (Engine.reload st newArtifact).2 features
      = Engine.score squash display st features) /\
  (Engine.usable st -> Engine.usable (Engine.reload st newArtifact).2).
Proof.
  intros Hinvalid.
  destruct (Engine.validate newArtifact) as [e|] eqn:Hv.
  - unfold Engine.reload. rewrite Hv. simpl. split_and!; [|done..].
    exists e. split; [done|]. by apply Engine_validate_fails.
  - apply Engine_validate_None in Hv as (? & ? & ?). tauto.
Qed.

(** C8. After a successful reload, [rollback] succeeds and makes the artifact
    that was active before the reload active again, so [score] answers as
    before the reload; a second [rollback] without a reload in between fails
    with [NoPriorVersionError], and so does a [rollback] right after
    startup. *)
Theorem rollback_restores_previous
  (squash display : float -> float)
  (st st1 : Engine.State) (newArtifact : Engine.ModelArtifact) :
  Engine.reload st newArtifact = (inr (), st1) ->
  (exists st2,
      Engine.rollback st1 = (inr (), st2) /\
      Engine.active st2 = Engine.active st /\
      (forall features,
          Engine.score squash display st2 features
          = Engine.score squash display st features) /\
      Engine.rollback st2 = (inl Engine.NoPriorVersionError, st2)) /\
  (forall bootstrap st0,
      Engine.startup bootstrap = inr st0 ->
      Engine.rollback st0 = (inl Engine.NoPriorVersionError, st0)).
Proof.
  intros Hreload. split.
  - unfold Engine.reload in Hreload.
    destruct (Engine.validate newArtifact); [done|].
    injection Hreload as <-.
    eexists. split; [reflexivity|]. done.
  - intros bootstrap st0. unfold Engine.startup.
    destruct (Engine.validate bootstrap); [done|]. by intros [= <-].
Qed.

(** ** The engine under concurrent callers *)

Module Concurrent.
Import Engine.






Section Steps.
Variable squash : float -> float.
Variable display : float -> float.






End Steps.
End Concurrent.

Section ConcurrentFacts.
Import Engine Concurrent.
Variable squash : float -> float.
Variable display : float -> float.








End ConcurrentFacts.


(** ** An engine to run *)

Module EngineDemo.

(** The documents the demonstration run of the script has written. *)
Definition written : World :=
  Eval vm_compute in (main Demo.lib Demo.env Demo.args Demo.start).2.

Definition model_data : ModelData :=
  Eval vm_compute in
    match files written !! (output Demo.args, "model_weights.json") with
    | Some (WeightsDocument md) => md
    | _ => {| weights := []; intercept := 0; threshold := 0 |}
    end.

Definition no_metrics : Metrics :=
  {| auc_roc := 0; cv_mean := 0; cv_std := 0; precision_at_90_recall := 0;
     training_date := ""; feature_importance := [] |}.

(** The weights document as the artifact of a version. *)
Definition artifact (md : ModelData) (v : N) : Engine.ModelArtifact :=
  {| Engine.weights := list_to_map (weights md);
     Engine.intercept := intercept md;
     Engine.threshold := threshold md;
     Engine.version := v;
     Engine.metrics := no_metrics;
     Engine.training_timestamp := "2024-05-01T12:00:00" |}.

Definition bootstrap : Engine.ModelArtifact := artifact model_data 1.

(** A later version with another intercept. *)
Definition candidate : Engine.ModelArtifact :=
  artifact {| weights := weights model_data; intercept := 25;
              threshold := 0.5 |} 2.

(** The later version without the weight of one feature. *)
Definition broken : Engine.ModelArtifact :=
  {| Engine.weights := delete "liquidity_usd" (Engine.weights candidate);
     Engine.intercept := Engine.intercept candidate;
     Engine.threshold := Engine.threshold candidate;
     Engine.version := 3;
     Engine.metrics := no_metrics;
     Engine.training_timestamp := "2024-05-01T12:00:00" |}.

Definition running : Engine.State :=
  {| Engine.active := bootstrap; Engine.previous := None |}.

Definition squash (x : float) : float := (0.5 + 0.5 * (x / (1 + abs x)))%float.
Definition display (p : float) : float := (p * 100)%float.


End EngineDemo.

Lemma EngineDemo_candidate_valid :
  Engine.validate EngineDemo.candidate = None.
Proof. vm_compute. reflexivity. Defined.


Lemma reload_failure_keeps_state_witness :
  (exists e,
      Engine.reload EngineDemo.running EngineDemo.broken
        = (inl (Engine.Artifact e), EngineDemo.running) /\
      Engine.fails e EngineDemo.broken) /\
  (forall features,
      Engine.score EngineDemo.squash EngineDemo.display
        (Engine.reload EngineDemo.running EngineDemo.broken).2 features
      = Engine.score EngineDemo.squash EngineDemo.display
          EngineDemo.running features) /\
  (Engine.usable EngineDemo.running ->
   Engine.usable (Engine.reload EngineDemo.running EngineDemo.broken).2).
Proof.
  apply reload_failure_keeps_state.
  left. apply (bool_decide_unpack _). vm_compute. exact I.
Defined.

Lemma rollback_restores_previous_witness :
  (exists st2,
      Engine.rollback {| Engine.active := EngineDemo.candidate;
                         Engine.previous := Some EngineDemo.bootstrap |}
        = (inr (), st2) /\
      Engine.active st2 = Engine.active EngineDemo.running /\
      (forall features,
          Engine.score EngineDemo.squash EngineDemo.display st2 features
          = Engine.score EngineDemo.squash EngineDemo.display
              EngineDemo.running features) /\
      Engine.rollback st2 = (inl Engine.NoPriorVersionError, st2)) /\
  (forall bootstrap st0,
      Engine.startup bootstrap = inr st0 ->
      Engine.rollback st0 = (inl Engine.NoPriorVersionError, st0)).
Proof.
  apply (rollback_restores_previous EngineDemo.squash EngineDemo.display
           EngineDemo.running _ EngineDemo.candidate).
  unfold Engine.reload. rewrite EngineDemo_candidate_valid. reflexivity.
Defined.



(** * Further properties of the training script *)

(** ** What the steps touch *)

(** A step that only prints: it appends to the output and leaves directories
    and files as they are. *)
Definition only_prints (w w' : World) : Prop :=
  (exists lines, stdout w' = stdout w ++ lines) /\
  dirs w' = dirs w /\ files w' = files w.

Definition quiet {A} (m : IO A) : Prop := forall w, only_prints w (m w).2.

Lemma only_prints_refl w : only_prints w w.
Proof. split; [exists []; by rewrite app_nil_r|done]. Qed.

Lemma only_prints_trans w1 w2 w3 :
  only_prints w1 w2 -> only_prints w2 w3 -> only_prints w1 w3.
Proof.
  intros ([l1 H1] & Hd1 & Hf1) ([l2 H2] & Hd2 & Hf2). split; [|split; congruence].
  exists (l1 ++ l2). by rewrite H2, H1, app_assoc.
Qed.

Lemma quiet_call {A} (r : Result A) : quiet (call r).
Proof. intros w. apply only_prints_refl. Qed.

Lemma quiet_raise {A} e : quiet (@raise A e).
Proof. intros w. apply only_prints_refl. Qed.

Lemma quiet_ret {A} (x : A) : quiet (mret x).
Proof. intros w. apply only_prints_refl. Qed.

Lemma quiet_bind {A B} (m : IO A) (k : A -> IO B) :
  quiet m -> (forall x, quiet (k x)) -> quiet (m ≫= k).
Proof.
  intros Hm Hk w. specialize (Hm w). unfold mbind, IO_bind.
  destruct (m w) as [[e|x] w1]; [done|].
  eapply only_prints_trans; [exact Hm|apply Hk].
Qed.

(** ** Loading *)

Lemma getitem_absent (df : DataFrame) c :
  c ∉ columns df -> getitem df c = inl (KeyError c).
Proof.
  induction df as [|[c' s] df IH]; simpl; [done|].
  intros [Hne Hnin]%not_elem_of_cons.
  rewrite decide_False by done. by apply IH.
Qed.

Lemma getitems_getitem (df : DataFrame) names X c :
  getitems df names = inr X -> c ∈ names -> getitem X c = getitem df c.
Proof.
  revert X. induction names as [|n names IH]; intros X HX Hc.
  { by apply elem_of_nil in Hc. }
  simpl in HX. destruct (getitem df n) as [|s] eqn:Hn; [done|].
  destruct (getitems df names) as [|rest]; [done|]. injection HX as <-.
  simpl. destruct (decide (n = c)) as [<-|Hne]; [done|].
  apply IH; [done|]. apply elem_of_cons in Hc as [?|?]; [congruence|done].
Qed.

(** ** The metrics document *)

Lemma importance_zip (X : DataFrame) (vs : list float) :
  columns X = feature_cols ->
  dict_map (fun v => v) (dict_of (zip (columns X) vs)) = zip feature_cols vs.
Proof.
  intros ->.
  assert (NoDup (keys (zip feature_cols vs))) as Hnd.
  { rewrite keys_zip.
    eapply sublist_NoDup; [apply NoDup_feature_cols|apply sublist_take]. }
  rewrite (dict_of_NoDup _ Hnd), (dict_map_NoDup _ _ Hnd).
  rewrite (map_zip_snd (fun v : float => v)). by rewrite map_id.
Qed.

(** X4. After a successful run the metrics document reports that run: the
    test AUC-ROC that [roc_auc_score] returned, the mean and the standard
    deviation of the five cross-validation scores, the selected precision,
    the clock of the run, and for each of the thirteen features, in the order
    of the schema, the absolute value of its coefficient (not scaled by 100,
    unlike the exported weight). *)
Theorem metrics_document_reports_the_run
  (lib : Library) (env : Env) (args : Args) (w w1 w2 : World)
  (X : DataFrame) (y : Series) (res : Results.t) :
  shape_contract lib ->
  load_data env (data args) w = (inr (X, y), w1) ->
  train_model lib env X y (test_size args) w1 = (inr res, w2) ->
  exists w' mt coef,
    main lib env args w = (0%Z, w') /\
    files w' !! (output args, "model_metrics.json") = Some (MetricsDocument mt) /\
    coef_ (Results.model res) !! 0 = Some coef /\
    roc_auc_score lib (Results.y_test res) (Results.y_pred_proba res)
      = inr (auc_roc mt) /\
    cv_mean mt = mean lib (Results.cv_scores res) /\
    cv_std mt = std lib (Results.cv_scores res) /\
    precision_at_90_recall mt = Results.precision_at_90_recall res /\
    training_date mt = timestamp_now env /\
    keys (feature_importance mt) = feature_cols /\
    (forall i f c,
        feature_cols !! i = Some f -> coef !! i = Some c ->
        dict_get (feature_importance mt) f = Some (PrimFloat.abs c)).
Proof.
  intros Hshape Hload Htrain.
  pose proof (load_data_columns _ _ _ _ _ _ Hload) as Hcols.
  destruct (trained_model_shape _ _ _ _ _ _ _ _ Hshape Htrain)
    as (coef & b & Hcoef & Hb & Hlen).
  destruct (main_run lib env args w X y w1 res w2 coef b Hload Htrain Hcoef Hb)
    as (w3 & Hexport & Hmain).
  rewrite (export_model_run lib env _ _ _ _ _ _ Hcoef Hb) in Hexport.
  injection Hexport as <-.
  apply train_model_inv in Htrain
    as (_ & _ & _ & _ & _ & _ & _ & _ & _ & coef'
        & _ & _ & _ & _ & _ & Hauc & _ & _ & _ & _ & _ & Hcoef' & Himp & _).
  assert (coef' = coef) as -> by congruence.
  eexists _, _, coef. split; [exact Hmain|]. simpl.
  rewrite lookup_insert_eq. split; [reflexivity|]. simpl.
  rewrite Himp, (importance_zip _ _ Hcols).
  split_and!; try done.
  - rewrite keys_zip, length_map, Hlen, Hcols. by rewrite take_ge.
  - intros i f c Hf Hc. eapply dict_get_lookup; [apply NoDup_feature_cols|done|].
    by rewrite list_lookup_fmap, Hc.
Qed.

Lemma metrics_document_reports_the_run_witness :
  exists w' mt coef,
    main Demo.lib Demo.env Demo.args Demo.start = (0%Z, w') /\
    files w' !! (output Demo.args, "model_metrics.json")
      = Some (MetricsDocument mt) /\
    coef_ (Results.model Demo.results) !! 0 = Some coef /\
    roc_auc_score Demo.lib (Results.y_test Demo.results)
      (Results.y_pred_proba Demo.results) = inr (auc_roc mt) /\
    cv_mean mt = mean Demo.lib (Results.cv_scores Demo.results) /\
    cv_std mt = std Demo.lib (Results.cv_scores Demo.results) /\
    precision_at_90_recall mt = Results.precision_at_90_recall Demo.results /\
    training_date mt = timestamp_now Demo.env /\
    keys (feature_importance mt) = feature_cols /\
    (forall i f c,
        feature_cols !! i = Some f -> coef !! i = Some c ->
        dict_get (feature_importance mt) f = Some (PrimFloat.abs c)).
Proof.
  exact (metrics_document_reports_the_run Demo.lib Demo.env Demo.args
           Demo.start Demo.after_loading Demo.after_training
           Demo.X Demo.y Demo.results
           Demo_lib_shape Demo_loaded Demo_trained).
Defined.

(** ** Exit status and output *)

(** A step that appends to the output, whatever else it does. *)
Definition appends (w w' : World) : Prop :=
  exists lines, stdout w' = stdout w ++ lines.

Lemma appends_trans w1 w2 w3 : appends w1 w2 -> appends w2 w3 -> appends w1 w3.
Proof.
  intros [l1 H1] [l2 H2]. exists (l1 ++ l2). by rewrite H2, H1, app_assoc.
Qed.

(** ** The selected precision *)

(** X6. Whenever the first point of the precision-recall curve has a recall
    of at least 0.9 (scikit-learn's curve starts at the lowest threshold,
    where recall is 1.0 as soon as the test part has a positive example), the
    reported [precision_at_90_recall] is the precision of that first point,
    whatever the rest of the curve is. *)
Theorem reported_precision_is_first_point
  (lib : Library) (env : Env) (X : DataFrame) (y : Series) (ts : float)
  (w w' : World) (res : Results.t) :
  train_model lib env X y ts w = (inr res, w') ->
  exists precision recall thresholds,
    precision_recall_curve lib (Results.y_test res) (Results.y_pred_proba res)
      = inr (precision, recall, thresholds) /\
    forall r0,
      recall !! 0 = Some r0 -> (0.9 <=? r0)%float = true ->
      precision !! 0 = Some (Results.precision_at_90_recall res).
Proof.
  intros Htrain.
  apply train_model_inv in Htrain
    as (_ & _ & _ & _ & precision & recall & thresholds & _ & _ & _
        & _ & _ & _ & _ & _ & _ & _ & Hprc & Hsel & _).
  exists precision, recall, thresholds. split; [done|].
  intros r0 Hr0 Hge. destruct recall as [|r recall]; [done|].
  injection Hr0 as ->.
  unfold select_precision_at_90_recall in Hsel. simpl in Hsel.
  rewrite Hge in Hsel. simpl in Hsel.
  destruct precision as [|p precision]; [done|].
  unfold index in Hsel. simpl in Hsel.
  repeat case_decide; simplify_eq/=; done || lia.
Qed.

Lemma reported_precision_is_first_point_witness :
  exists precision recall thresholds,
    precision_recall_curve Demo.lib (Results.y_test Demo.results)
      (Results.y_pred_proba Demo.results)
      = inr (precision, recall, thresholds) /\
    forall r0,
      recall !! 0 = Some r0 -> (0.9 <=? r0)%float = true ->
      precision !! 0 = Some (Results.precision_at_90_recall Demo.results).
Proof.
  exact (reported_precision_is_first_point Demo.lib Demo.env Demo.X Demo.y
           (test_size Demo.args) Demo.after_loading Demo.after_training
           Demo.results Demo_trained).
Defined.

(** X7. On a curve with as many precisions as recalls and at least one point
    the selection never raises and never falls back to the last precision:
    it returns the precision at the index [np.argmax] gives, which is the
    first index whose recall reaches 0.9, or 0 when no recall does. *)
Theorem selection_returns_precision_at_argmax
  (precision recall : list float) :
  recall <> [] ->
  length precision = length recall ->
  exists idx p,
    argmax (map (fun r => (0.9 <=? r)%float) recall) = inr idx /\
    select_precision_at_90_recall precision recall = inr p /\
    precision !! idx = Some p /\
    (forall i ri, i < idx -> recall !! i = Some ri -> (0.9 <=? ri)%float = false) /\
    ((exists ri, recall !! idx = Some ri /\ (0.9 <=? ri)%float = true) \/
     (idx = 0 /\
      forall i ri, recall !! i = Some ri -> (0.9 <=? ri)%float = false)).
Proof.
  intros Hne Hlen.
  set (reaches := map (fun r => (0.9 <=? r)%float) recall).
  assert (forall i b, reaches !! i = Some b <->
            exists ri, recall !! i = Some ri /\ (0.9 <=? ri)%float = b) as Hreach.
  { intros i b. unfold reaches. rewrite list_lookup_fmap.
    destruct (recall !! i); simpl; naive_solver. }
  assert (argmax reaches = inr (default 0 (first_true reaches))) as Harg.
  { unfold argmax, reaches. by destruct recall. }
  assert (0 < length precision) as Hpos.
  { rewrite Hlen. destruct recall; [done|simpl; lia]. }
  destruct (first_true reaches) as [j|] eqn:Hj; simpl in Harg.
  - destruct (first_true_Some _ _ Hj) as [Hat Hbefore].
    apply Hreach in Hat as (rj & Hrj & Hge).
    destruct (lookup_lt_is_Some_2 precision j) as [p Hp].
    { rewrite Hlen. by eapply lookup_lt_Some. }
    exists j, p. split_and!; [done| |done| |by eauto].
    + unfold select_precision_at_90_recall. fold reaches. rewrite Harg.
      rewrite decide_True by (by eapply lookup_lt_Some).
      unfold index. by rewrite Hp.
    + intros i ri Hi Hri. specialize (Hbefore i Hi).
      apply Hreach in Hbefore as (? & ? & ?). congruence.
  - destruct (lookup_lt_is_Some_2 precision 0 Hpos) as [p Hp].
    exists 0, p. split_and!; [done| |done|intros; lia|].
    + unfold select_precision_at_90_recall. fold reaches. rewrite Harg.
      rewrite decide_True by done. unfold index. by rewrite Hp.
    + right. split; [done|]. intros i ri Hri.
      destruct (0.9 <=? ri)%float eqn:Hge; [|done].
      exfalso. apply (first_true_None reaches i Hj). apply Hreach. eauto.
Qed.

Lemma selection_returns_precision_at_argmax_witness :
  exists idx p,
    argmax (map (fun r => (0.9 <=? r)%float) [0.5; 0.95; 1; 0]%float) = inr idx /\
    select_precision_at_90_recall [0.25; 0.5; 0.75; 1]%float
      [0.5; 0.95; 1; 0]%float = inr p /\
    [0.25; 0.5; 0.75; 1]%float !! idx = Some p /\
    (forall i ri, i < idx -> [0.5; 0.95; 1; 0]%float !! i = Some ri ->
                  (0.9 <=? ri)%float = false) /\
    ((exists ri, [0.5; 0.95; 1; 0]%float !! idx = Some ri /\
                 (0.9 <=? ri)%float = true) \/
     (idx = 0 /\
      forall i ri, [0.5; 0.95; 1; 0]%float !! i = Some ri ->
                   (0.9 <=? ri)%float = false)).
Proof.
  apply (selection_returns_precision_at_argmax [0.25; 0.5; 0.75; 1]%float
           [0.5; 0.95; 1; 0]%float).
  - discriminate.
  - reflexivity.
Defined.

(** ** The most important features *)

Lemma SFleb_trans (x y z : spec_float) :
  SFleb x y = true -> SFleb y z = true -> SFleb x z = true.
Proof.
  unfold SFleb, SFcompare.
  destruct x as [sx|sx| |sx mx ex], y as [sy|sy| |sy my ey],
           z as [sz|sz| |sz mz ez];
    try (destruct sx); try (destruct sy); try (destruct sz);
    try discriminate; try reflexivity.
  all: change (PosDef.Pos.compare_cont Eq) with Pos.compare.
  all: destruct (Z.compare_spec ex ey), (Z.compare_spec ey ez),
         (Z.compare_spec ex ez); try discriminate; try reflexivity; try lia.
  all: destruct (Pos.compare_spec mx my), (Pos.compare_spec my mz),
         (Pos.compare_spec mx mz); try discriminate; try reflexivity; try lia.
Qed.

Lemma SFltb_false_SFleb (x y : spec_float) :
  x <> S754_nan -> y <> S754_nan ->
  SFltb x y = false -> SFleb y x = true.
Proof.
  unfold SFltb, SFleb, SFcompare.
  destruct x as [sx|sx| |sx mx ex], y as [sy|sy| |sy my ey];
    try (destruct sx); try (destruct sy); try discriminate; try reflexivity;
    try congruence.
  all: intros _ _.
  all: change (PosDef.Pos.compare_cont Eq) with Pos.compare.
  all: rewrite (Z.compare_antisym ex ey), (Pos.compare_antisym mx my).
  all: destruct (ex ?= ey)%Z; simpl; try discriminate; try reflexivity.
  all: destruct (mx ?= my)%positive; simpl; try discriminate; try reflexivity.
Qed.

Lemma is_nan_false (x : float) : is_nan x = false -> Prim2SF x <> S754_nan.
Proof.
  unfold is_nan. rewrite FloatAxioms.eqb_spec. intros H Hn. rewrite Hn in H.
  discriminate.
Qed.

(** Among numbers that are not NaN, what is not smaller is at least as
    large. *)
Lemma ltb_false_leb (x y : float) :
  is_nan x = false -> is_nan y = false ->
  (x <? y)%float = false -> (y <=? x)%float = true.
Proof.
  intros Hx%is_nan_false Hy%is_nan_false. rewrite ltb_spec, leb_spec.
  by apply SFltb_false_SFleb.
Qed.

Lemma leb_trans (x y z : float) :
  (x <=? y)%float = true -> (y <=? z)%float = true -> (x <=? z)%float = true.
Proof. rewrite !leb_spec. apply SFleb_trans. Qed.

Lemma ltb_leb (x y : float) : (x <? y)%float = true -> (x <=? y)%float = true.
Proof.
  rewrite ltb_spec, leb_spec. unfold SFltb, SFleb.
  by destruct (SFcompare _ _) as [[]|].
Qed.

Lemma abs_not_nan (x : float) : is_nan x = false -> is_nan (abs x) = false.
Proof.
  unfold is_nan. rewrite !FloatAxioms.eqb_spec, FloatAxioms.abs_spec.
  destruct (Prim2SF x) as [s|s| |s m e]; simpl; try done.
  intros _. unfold SFeqb, SFcompare.
  change (PosDef.Pos.compare_cont Eq) with Pos.compare.
  by rewrite Z.compare_refl, Pos.compare_refl.
Qed.

(** Every entry is at least as large as the entries after it. *)
Definition largest_first (l : list (string * float)) : Prop :=
  forall i j a b,
    i < j -> l !! i = Some a -> l !! j = Some b -> (b.2 <=? a.2)%float = true.

Lemma largest_first_cons a l :
  largest_first (a :: l) <->
  (forall b, b ∈ l -> (b.2 <=? a.2)%float = true) /\ largest_first l.
Proof.
  split.
  - intros H. split.
    + intros b [j Hj]%list_elem_of_lookup. apply (H 0 (S j) a b); [lia|done..].
    + intros i j x z Hij Hx Hz. apply (H (S i) (S j) x z); [lia|done..].
  - intros [Hhd Htl] [|i] [|j] x z Hij Hx Hz; simplify_eq/=; try lia.
    + apply Hhd. by eapply list_elem_of_lookup_2.
    + eapply Htl; [|done..]. lia.
Qed.

Lemma insert_desc_Permutation x l : insert_desc x l ≡ₚ x :: l.
Proof.
  induction l as [|y l IH]; simpl; [done|].
  destruct (x.2 <? y.2)%float; [|done].
  rewrite IH. apply Permutation_swap.
Qed.

Lemma sorted_desc_Permutation items : sorted_desc items ≡ₚ items.
Proof.
  unfold sorted_desc. induction items as [|x items IH]; simpl; [done|].
  by rewrite insert_desc_Permutation, IH.
Qed.

Lemma insert_desc_largest_first x l :
  is_nan x.2 = false ->
  (forall y, y ∈ l -> is_nan y.2 = false) ->
  largest_first l -> largest_first (insert_desc x l).
Proof.
  intros Hx. induction l as [|y l IH]; intros Hnan Hl; simpl.
  - intros [|i] [|j] a b Hij Ha Hb; simplify_eq/=; lia.
  - apply largest_first_cons in Hl as [Hhd Htl].
    destruct (x.2 <? y.2)%float eqn:Hxy.
    + apply largest_first_cons. split.
      * intros b Hb. rewrite insert_desc_Permutation in Hb.
        apply elem_of_cons in Hb as [->|Hb]; [by apply ltb_leb|by apply Hhd].
      * apply IH; [|done]. intros z Hz. apply Hnan. by right.
    + assert ((y.2 <=? x.2)%float = true) as Hyx.
      { apply ltb_false_leb; [done| |done]. apply Hnan. left. }
      apply largest_first_cons. split.
      * intros b [->|Hb]%elem_of_cons; [done|].
        eapply leb_trans; [by apply Hhd|done].
      * by apply largest_first_cons.
Qed.

Lemma sorted_desc_largest_first items :
  (forall y, y ∈ items -> is_nan y.2 = false) ->
  largest_first (sorted_desc items).
Proof.
  unfold sorted_desc. induction items as [|x items IH]; intros Hnan; simpl.
  - intros [|i] [|j] a b Hij Ha Hb; simplify_eq/=.
  - apply insert_desc_largest_first.
    + apply Hnan. left.
    + intros y Hy. fold (sorted_desc items) in Hy.
      rewrite sorted_desc_Permutation in Hy. apply Hnan. by right.
    + apply IH. intros y Hy. apply Hnan. by right.
Qed.

Lemma largest_first_take n l : largest_first l -> largest_first (take n l).
Proof.
  intros Hl i j a b Hij Ha Hb.
  apply lookup_take_Some in Ha as [Ha _], Hb as [Hb _]. by eapply Hl.
Qed.

(** X8. The features [train_model] prints as most important, when no
    coefficient of the model is NaN: after a successful training the last
    line printed lists five features; each is a feature of the schema with
    the absolute value of its coefficient, no feature is listed twice, and
    every listed value is at least as large as the values listed after
    it. *)
Theorem top_features_line
  (lib : Library) (env : Env) (filepath : string) (ts : float)
  (w w1 w2 : World) (X : DataFrame) (y : Series) (res : Results.t)
  (coef : list float) :
  shape_contract lib ->
  load_data env filepath w = (inr (X, y), w1) ->
  train_model lib env X y ts w1 = (inr res, w2) ->
  coef_ (Results.model res) !! 0 = Some coef ->
  Forall (fun c => is_nan c = false) coef ->
  exists top,
    last (stdout w2) = Some (TopFeatures top) /\
    length top = 5 /\
    NoDup top.*1 /\
    (forall f v, (f, v) ∈ top ->
       exists i c, feature_cols !! i = Some f /\ coef !! i = Some c /\
                   v = PrimFloat.abs c) /\
    largest_first top.
Proof.
  intros Hshape Hload Htrain Hrow Hnan.
  pose proof (load_data_columns _ _ _ _ _ _ Hload) as Hcols.
  destruct (trained_model_shape _ _ _ _ _ _ _ _ Hshape Htrain)
    as (coef0 & b & Hcoef & Hb & Hlen).
  assert (coef0 = coef) as -> by congruence.
  apply train_model_inv in Htrain
    as (_ & _ & _ & _ & _ & _ & _ & report & matrix & coef'
        & _ & _ & _ & _ & _ & _ & _ & _ & _ & _ & _ & Hcoef' & Himp & ->).
  assert (coef' = coef) as -> by congruence.
  assert (Results.feature_importance res
          = zip feature_cols (map PrimFloat.abs coef)) as Hzip.
  { rewrite Himp, Hcols. apply dict_of_NoDup. rewrite keys_zip.
    eapply sublist_NoDup; [apply NoDup_feature_cols|apply sublist_take]. }
  pose proof (sorted_desc_Permutation (Results.feature_importance res)) as Hperm.
  assert (forall f v, (f, v) ∈ Results.feature_importance res ->
            exists i c, feature_cols !! i = Some f /\ coef !! i = Some c /\
                        v = PrimFloat.abs c) as Hmem.
  { intros f v Hin. rewrite Hzip in Hin.
    apply list_elem_of_lookup in Hin as [i Hi].
    apply lookup_zip_with_Some in Hi as (f' & v' & [= <- <-] & Hf & Hv).
    rewrite list_lookup_fmap in Hv.
    destruct (coef !! i) as [c|] eqn:Hc; [|done]. injection Hv as <-. eauto. }
  exists (take 5 (sorted_desc (Results.feature_importance res))).
  split_and!.
  - unfold emit. simpl. by rewrite last_app.
  - rewrite length_take, Hperm, Hzip, length_zip, length_map, Hlen, Hcols.
    reflexivity.
  - eapply sublist_NoDup; [|apply fmap_sublist, sublist_take].
    rewrite Hperm, Hzip. fold (keys (zip feature_cols (map PrimFloat.abs coef))).
    rewrite keys_zip.
    eapply sublist_NoDup; [apply NoDup_feature_cols|apply sublist_take].
  - intros f v Hin. apply elem_of_take in Hin as (j & Hj & _).
    apply list_elem_of_lookup_2 in Hj. rewrite Hperm in Hj. by apply Hmem.
  - apply largest_first_take, sorted_desc_largest_first.
    intros [f v] Hin. destruct (Hmem f v Hin) as (i & c & _ & Hc & ->).
    simpl. apply abs_not_nan.
    by apply (proj1 (Forall_lookup _ _) Hnan i c).
Qed.

Lemma top_features_line_witness :
  exists top,
    last (stdout Demo.after_training) = Some (TopFeatures top) /\
    length top = 5 /\
    NoDup top.*1 /\
    (forall f v, (f, v) ∈ top ->
       exists i c,
         feature_cols !! i = Some f /\
         [1.1499999999999999; 110; 5012; 250100; 1; 1; 1; 1; 0.875; 1; 402;
          51000; 0.875]%float !! i = Some c /\
         v = PrimFloat.abs c) /\
    largest_first top.
Proof.
  apply (top_features_line Demo.lib Demo.env (data Demo.args)
           (test_size Demo.args) Demo.start Demo.after_loading
           Demo.after_training Demo.X Demo.y Demo.results
           [1.1499999999999999; 110; 5012; 250100; 1; 1; 1; 1; 0.875; 1; 402;
            51000; 0.875]%float
           Demo_lib_shape Demo_loaded Demo_trained).
  - vm_compute. reflexivity.
  - repeat constructor.
Defined.


(** * The script on any standard output

    Four messages of the script are not ASCII (lines 189, 192, 197 and 204):
    on a standard output whose encoding cannot represent a message, [print]
    raises [UnicodeEncodeError] and writes nothing. And the counts of the
    second line of [load_data], [y.sum()] and [len(y) - y.sum()], are pandas'
    arithmetic on the label column: they are what pandas returns, and they
    raise on a column that is not numeric. This part gives the script over a
    [Host] that decides both; the script above is the case of a host that
    encodes every message and counts labels with [series_sum]
    ([main_on_faithful_host]). *)

Module Terminal.

Record Host := {
  (** whether the encoding of the standard output can represent a line *)
  encodes : Line -> bool;
  (** [y.sum()] and [len(y) - y.sum()] *)
  label_counts : Series -> Result (float * float)
}.

Section Script.
Variable host : Host.
Variable lib : Library.
Variable env : Env.

Definition print (l : Line) : IO unit := fun w =>
  if encodes host l
  then (inr (), {| stdout := stdout w ++ [l]; dirs := dirs w; files := files w |})
  else (inl UnicodeEncodeError, w).

Definition load_data (filepath : string) : IO (DataFrame * Series) :=
  print (LoadingData filepath) ;;
  df ← call (read_csv env filepath);
  let missing_cols : gset string :=
    list_to_set required_cols ∖ list_to_set (columns df) in
  if decide (missing_cols ≠ ∅) then raise (MissingRequiredColumns missing_cols)
  else
    X ← call (getitems df feature_cols);
    y ← call (getitem df "is_rug_pull");
    counts ← call (label_counts host y);
    print (LoadedSamples (nrows df) counts.1 counts.2) ;;
    mret (X, y).

Definition train_model (X : DataFrame) (y : Series) (test_size : float) :
  IO Results.t :=
  print TrainingModel ;;
  '(X_train, X_test, y_train, y_test) ←
    call (train_test_split lib (entropy env) X y test_size (Some 42%Z) (Some y));
  model ← call (fit lib (entropy env)
                  {| penalty := "l2"; C := 1.0%float; solver := "lbfgs";
                     max_iter := 1000; random_state := Some 42%Z |}
                  X_train y_train);
  y_pred ← call (predict lib model X_test);
  proba ← call (predict_proba lib model X_test);
  y_pred_proba ← call (from_option inr (inl IndexError)
                         (mapM (fun row => row !! 1) proba));
  auc_score ← call (roc_auc_score lib y_test y_pred_proba);
  cv_scores ← call (cross_val_score lib (entropy env) model X_train y_train
                      5 "roc_auc");
  '(precision, recall, thresholds) ←
    call (precision_recall_curve lib y_test y_pred_proba);
  precision_at_90_recall ←
    call (select_precision_at_90_recall precision recall);
  print (ModelPerformance auc_score (mean lib cv_scores)
           (std lib cv_scores * 2)%float precision_at_90_recall) ;;
  report ← call (classification_report lib y_test y_pred
                   ["Legitimate"; "Rug Pull"]);
  print (ClassificationReport report) ;;
  matrix ← call (confusion_matrix lib y_test y_pred);
  print (ConfusionMatrix matrix) ;;
  coef ← call (index (coef_ model) 0);
  let feature_importance := dict_of (zip (columns X) (map PrimFloat.abs coef)) in
  let sorted_features := sorted_desc feature_importance in
  print (TopFeatures (take 5 sorted_features)) ;;
  mret {| Results.model := model;
          Results.auc_roc := auc_score;
          Results.cv_scores := cv_scores;
          Results.precision_at_90_recall := precision_at_90_recall;
          Results.X_test := X_test;
          Results.y_test := y_test;
          Results.y_pred_proba := y_pred_proba;
          Results.feature_importance := feature_importance |}.

Definition export_model (results : Results.t) (X : DataFrame)
  (output_dir : string) : IO unit :=
  mkdir output_dir ;;
  let model := Results.model results in
  coef ← call (index (coef_ model) 0);
  let weights := dict_of (zip (columns X) coef) in
  intercept ← call (index (intercept_ model) 0);
  let scaled_weights := dict_map (fun v => v * 100.0)%float weights in
  let scaled_intercept := (intercept * 100.0)%float in
  let model_data :=
    {| weights := scaled_weights;
       intercept := scaled_intercept;
       threshold := 0.5%float |} in
  json_dump (WeightsDocument model_data) output_dir "model_weights.json" ;;
  print (WeightsSaved output_dir "model_weights.json") ;;
  let metrics :=
    {| auc_roc := Results.auc_roc results;
       cv_mean := mean lib (Results.cv_scores results);
       cv_std := std lib (Results.cv_scores results);
       precision_at_90_recall := Results.precision_at_90_recall results;
       training_date := timestamp_now env;
       feature_importance :=
         dict_map (fun v => v) (Results.feature_importance results) |} in
  json_dump (MetricsDocument metrics) output_dir "model_metrics.json" ;;
  print (MetricsSaved output_dir "model_metrics.json").

(** The quality check of [main]. *)
Definition check_requirements (results : Results.t) : IO unit :=
  if (Results.auc_roc results <? 0.75)%float then
    print WarningBelowThreshold ;;
    print ConsiderMoreData
  else if (0.85 <=? Results.auc_roc results)%float then
    print MeetsRequirements
  else mret ().

(** The body of the [try] block of [main]. *)
Definition main_try (args : Args) : IO unit :=
  '(X, y) ← load_data (data args);
  results ← train_model X y (test_size args);
  check_requirements results ;;
  export_model results X (output args) ;;
  print TrainingComplete ;;
  print (IntegrationSteps (output args)).

(** [main()]: an exception of the [try] block is printed and the process
    ends with [sys.exit(1)]; when that print raises in its turn, the
    exception is not caught and the process ends with status 1 as well. *)
Definition main (args : Args) (w : World) : Z * World :=
  match main_try args w with
  | (inr _, w') => (0%Z, w')
  | (inl e, w') => (1%Z, (print (ErrorLine e) w').2)
  end.
End Script.

(** A host on which the script is the script of the first part. *)
Definition faithful (host : Host) : Prop :=
  (forall l, encodes host l = true) /\
  (forall y,
      label_counts host y
      = inr (series_sum y,
             (PrimFloat.of_uint63 (Uint63.of_Z (Z.of_nat (length y)))
              - series_sum y)%float)).

End Terminal.

(** A standard output in UTF-8 and one in ASCII, both with the sums of the
    first part. *)
Module TerminalDemo.
Definition counts (y : Series) : Result (float * float) :=
  inr (series_sum y,
       (PrimFloat.of_uint63 (Uint63.of_Z (Z.of_nat (length y)))
        - series_sum y)%float).

Definition utf8 : Terminal.Host :=
  {| Terminal.encodes l := true; Terminal.label_counts := counts |}.

Definition ascii : Terminal.Host :=
  {| Terminal.encodes l :=
       match l with
       | WarningBelowThreshold | MeetsRequirements | TrainingComplete
       | ErrorLine _ => false
       | _ => true
       end;
     Terminal.label_counts := counts |}.
End TerminalDemo.

(** ** The two scripts *)

Lemma Terminal_print_ok host l w :
  Terminal.encodes host l = true -> Terminal.print host l w = (inr (), emit [l] w).
Proof. unfold Terminal.print. by intros ->. Qed.

Lemma Terminal_print_fails host l w :
  Terminal.encodes host l = false ->
  Terminal.print host l w = (inl UnicodeEncodeError, w).
Proof. unfold Terminal.print. by intros ->. Qed.

Section FaithfulHost.
Variable host : Terminal.Host.
Variable lib : Library.
Variable env : Env.
Hypothesis Hhost : Terminal.faithful host.

Lemma print_on_faithful_host l w : Terminal.print host l w = print l w.
Proof. destruct Hhost as [Henc _]. unfold Terminal.print. by rewrite Henc. Qed.

Lemma load_data_on_faithful_host filepath w :
  Terminal.load_data host env filepath w = load_data env filepath w.
Proof.
  destruct Hhost as [_ Hcounts].
  unfold Terminal.load_data, load_data.
  apply bind_ext; [apply print_on_faithful_host|intros [] w0 _].
  apply bind_ext; [done|intros df w1 _].
  case_decide; [done|].
  apply bind_ext; [done|intros X w2 _].
  apply bind_ext; [done|intros y w3 _].
  rewrite Hcounts. unfold mbind at 1, IO_bind at 1, call at 1. simpl.
  apply bind_ext; [apply print_on_faithful_host|done].
Qed.

Lemma train_model_on_faithful_host X y ts w :
  Terminal.train_model host lib env X y ts w = train_model lib env X y ts w.
Proof.
  unfold Terminal.train_model, train_model.
  apply bind_ext; [apply print_on_faithful_host|intros [] ? _].
  apply bind_ext; [done|intros [[[X_train X_test] y_train] y_test] ? _].
  do 6 (apply bind_ext; [done|intros ? ? _]).
  apply bind_ext; [done|intros [[precision recall] thresholds] ? _].
  apply bind_ext; [done|intros ? ? _].
  apply bind_ext; [apply print_on_faithful_host|intros [] ? _].
  apply bind_ext; [done|intros ? ? _].
  apply bind_ext; [apply print_on_faithful_host|intros [] ? _].
  apply bind_ext; [done|intros ? ? _].
  apply bind_ext; [apply print_on_faithful_host|intros [] ? _].
  apply bind_ext; [done|intros ? ? _].
  apply bind_ext; [apply print_on_faithful_host|done].
Qed.

Lemma export_model_on_faithful_host res X output_dir w :
  Terminal.export_model host lib env res X output_dir w
  = export_model lib env res X output_dir w.
Proof.
  unfold Terminal.export_model, export_model.
  do 4 (apply bind_ext; [done|intros ? ? _]).
  apply bind_ext; [apply print_on_faithful_host|intros [] ? _].
  apply bind_ext; [done|intros ? ? _].
  apply print_on_faithful_host.
Qed.

Lemma main_try_on_faithful_host args w :
  Terminal.main_try host lib env args w = main_try lib env args w.
Proof.
  unfold Terminal.main_try, main_try.
  apply bind_ext; [apply load_data_on_faithful_host|intros [X y] ? _]. simpl.
  apply bind_ext; [apply train_model_on_faithful_host|intros res ? _].
  apply bind_ext.
  { unfold Terminal.check_requirements.
    destruct (_ <? _)%float; [|destruct (_ <=? _)%float];
      [|apply print_on_faithful_host|done].
    apply bind_ext; [apply print_on_faithful_host|intros [] ? _].
    apply print_on_faithful_host. }
  intros [] ? _.
  apply bind_ext; [apply export_model_on_faithful_host|intros [] ? _].
  apply bind_ext; [apply print_on_faithful_host|intros [] ? _].
  apply print_on_faithful_host.
Qed.

(** On a host that encodes every message and counts labels with
    [series_sum], the script over the host is the script of the first
    part. *)
Lemma main_on_faithful_host args w :
  Terminal.main host lib env args w = main lib env args w.
Proof.
  unfold Terminal.main, main. rewrite main_try_on_faithful_host.
  destruct (main_try lib env args w) as [[e|[]] w']; [|done].
  by rewrite print_on_faithful_host.
Qed.
End FaithfulHost.


(** ** What the steps touch, on any host *)

Lemma Terminal_print_inr host l w x w' :
  Terminal.print host l w = (inr x, w') ->
  Terminal.encodes host l = true /\ w' = emit [l] w.
Proof.
  unfold Terminal.print. destruct (Terminal.encodes host l); [|done].
  by intros [= <- <-].
Qed.

Lemma Terminal_print_quiet host l : quiet (Terminal.print host l).
Proof.
  intros w. unfold Terminal.print. destruct (Terminal.encodes host l); simpl.
  - split; [by exists [l]|done].
  - apply only_prints_refl.
Qed.

Ltac terminal_quiet :=
  repeat first
    [ apply Terminal_print_quiet | apply quiet_call | apply quiet_raise
    | apply quiet_ret
    | apply quiet_bind; [|intros ?]
    | match goal with
      | |- quiet (match ?x with (_, _) => _ end) => destruct x
      | |- quiet (let '(_, _) := ?x in _) => destruct x
      | |- quiet (if ?b then _ else _) => destruct b
      end ].

Lemma Terminal_load_data_quiet host env filepath :
  quiet (Terminal.load_data host env filepath).
Proof. unfold Terminal.load_data. terminal_quiet. Qed.

Lemma Terminal_train_model_quiet host lib env X y ts :
  quiet (Terminal.train_model host lib env X y ts).
Proof. unfold Terminal.train_model. terminal_quiet. Qed.

Lemma Terminal_check_requirements_quiet host res :
  quiet (Terminal.check_requirements host res).
Proof. unfold Terminal.check_requirements. terminal_quiet. Qed.

Lemma quiet_run {A} (m : IO A) w r w' :
  quiet m -> m w = (r, w') -> only_prints w w'.
Proof. intros Hm Hrun. specialize (Hm w). by rewrite Hrun in Hm. Qed.

(** The files after a step: as before it, with the weights document, or with
    both documents. *)
Definition with_weights (output_dir : string) (fs fs' : gmap (string * string) Document) : Prop :=
  exists md, fs' = <[(output_dir, "model_weights.json") := WeightsDocument md]> fs.

Definition with_both (output_dir : string) (fs fs' : gmap (string * string) Document) : Prop :=
  exists md mt,
    fs' = <[(output_dir, "model_metrics.json") := MetricsDocument mt]>
            (<[(output_dir, "model_weights.json") := WeightsDocument md]> fs).

(** [export_model] on any host: it raises before it has written anything; or
    after the weights document, when the message that follows it cannot be
    encoded; or after both documents, when the last message cannot be
    encoded; or it returns, both documents written. *)
Lemma Terminal_export_model_outcome host lib env res X output_dir w :
  exists r w',
    Terminal.export_model host lib env res X output_dir w = (r, w') /\
    appends w w' /\
    ((exists e, r = inl e /\ files w' = files w) \/
     (r = inl UnicodeEncodeError /\
      Terminal.encodes host (WeightsSaved output_dir "model_weights.json") = false /\
      with_weights output_dir (files w) (files w')) \/
     (r = inl UnicodeEncodeError /\
      Terminal.encodes host (MetricsSaved output_dir "model_metrics.json") = false /\
      with_both output_dir (files w) (files w')) \/
     (r = inr () /\ with_both output_dir (files w) (files w'))).
Proof.
  unfold Terminal.export_model, index, with_weights, with_both.
  destruct (coef_ (Results.model res) !! 0) as [coef|].
  2:{ eexists _, _. split; [reflexivity|]. simpl.
      split; [exists []; by rewrite app_nil_r|]. left. by eexists. }
  destruct (intercept_ (Results.model res) !! 0) as [b|].
  2:{ eexists _, _. split; [reflexivity|]. simpl.
      split; [exists []; by rewrite app_nil_r|]. left. by eexists. }
  unfold mbind, IO_bind, call, mkdir, json_dump, Terminal.print. simpl.
  destruct (Terminal.encodes host (WeightsSaved _ _)) eqn:Hw; simpl.
  - destruct (Terminal.encodes host (MetricsSaved _ _)) eqn:Hm; simpl.
    + eexists _, _. split; [reflexivity|]. simpl.
      split; [eexists; by rewrite <- app_assoc|]. do 3 right. eauto.
    + eexists _, _. split; [reflexivity|]. simpl.
      split; [by eexists|]. right. right. left. eauto.
  - eexists _, _. split; [reflexivity|]. simpl.
    split; [exists []; by rewrite app_nil_r|]. right. left. eauto.
Qed.

(** The [try] block of [main] on any host: how far it has come with the
    documents when it returns or raises. *)
Lemma Terminal_main_try_outcome host lib env args w :
  exists r w',
    Terminal.main_try host lib env args w = (r, w') /\
    appends w w' /\
    ((r = inr () /\ with_both (output args) (files w) (files w') /\
      exists w0, appends w w0 /\ w' = emit [IntegrationSteps (output args)] w0) \/
     (exists e, r = inl e /\
        (files w' = files w \/
         (with_weights (output args) (files w) (files w') /\
          Terminal.encodes host (WeightsSaved (output args) "model_weights.json")
          = false) \/
         (with_both (output args) (files w) (files w') /\
          (Terminal.encodes host (MetricsSaved (output args) "model_metrics.json")
           = false \/
           Terminal.encodes host TrainingComplete = false \/
           Terminal.encodes host (IntegrationSteps (output args)) = false))))).
Proof.
  unfold Terminal.main_try.
  destruct (Terminal.load_data host env (data args) w) as [[e|[X y]] w1] eqn:Hload;
    destruct (quiet_run _ _ _ _ (Terminal_load_data_quiet host env (data args)) Hload)
      as (Ha1 & _ & Hf1).
  { rewrite (bind_raise _ _ _ _ _ Hload). eexists _, _. split; [done|].
    split; [done|]. right. eauto. }
  rewrite (bind_step _ _ _ _ _ Hload). simpl.
  destruct (Terminal.train_model host lib env X y (test_size args) w1)
    as [[e|res] w2] eqn:Htrain;
    destruct (quiet_run _ _ _ _
                (Terminal_train_model_quiet host lib env X y (test_size args)) Htrain)
      as (Ha2 & _ & Hf2).
  { rewrite (bind_raise _ _ _ _ _ Htrain). eexists _, _. split; [done|].
    split; [by eapply appends_trans|]. right. exists e. split; [done|].
    left. congruence. }
  rewrite (bind_step _ _ _ _ _ Htrain).
  destruct (Terminal.check_requirements host res w2) as [[e|[]] w3] eqn:Hcheck;
    destruct (quiet_run _ _ _ _ (Terminal_check_requirements_quiet host res) Hcheck)
      as (Ha3 & _ & Hf3).
  { rewrite (bind_raise _ _ _ _ _ Hcheck). eexists _, _. split; [done|].
    split; [eapply appends_trans; [|done]; by eapply appends_trans|].
    right. exists e. split; [done|]. left. congruence. }
  rewrite (bind_step _ _ _ _ _ Hcheck).
  assert (appends w w3) as Ha by
    (eapply appends_trans; [|done]; by eapply appends_trans).
  assert (files w3 = files w) as Hf by congruence.
  destruct (Terminal_export_model_outcome host lib env res X (output args) w3)
    as (r & w4 & Hexport & Ha4 & Hcases).
  rewrite <- Hf.
  destruct Hcases as [(e & -> & Hf4)|[(-> & Henc & Hw)|[(-> & Henc & Hb)|[-> Hb]]]].
  - rewrite (bind_raise _ _ _ _ _ Hexport). eexists _, _. split; [done|].
    split; [by eapply appends_trans|]. right. exists e. auto.
  - rewrite (bind_raise _ _ _ _ _ Hexport). eexists _, _. split; [done|].
    split; [by eapply appends_trans|]. right. eexists. split; [done|]. auto.
  - rewrite (bind_raise _ _ _ _ _ Hexport). eexists _, _. split; [done|].
    split; [by eapply appends_trans|]. right. eexists. split; [done|].
    right. right. auto.
  - rewrite (bind_step _ _ _ _ _ Hexport).
    unfold mbind, IO_bind, Terminal.print.
    destruct (Terminal.encodes host TrainingComplete) eqn:H1; simpl.
    + destruct (Terminal.encodes host (IntegrationSteps _)) eqn:H2; simpl.
      * eexists _, _. split; [done|].
        split.
        { eapply appends_trans; [by eapply appends_trans|].
          eexists. simpl. by rewrite <- app_assoc. }
        left. split; [done|]. split; [done|].
        exists (emit [TrainingComplete] w4). split; [|done].
        eapply appends_trans; [by eapply appends_trans|]. by eexists.
      * eexists _, _. split; [done|].
        split.
        { eapply appends_trans; [by eapply appends_trans|]. by eexists. }
        right. eexists. split; [done|]. right. right. auto.
    + eexists _, _. split; [done|].
      split; [by eapply appends_trans|].
      right. eexists. split; [done|]. right. right. auto.
Qed.


(** ** The quality check on a standard output that cannot encode it *)

(** C3. The check is meant to inform only, but it can stop the export: its
    warning (line 189) is not ASCII, and on a standard output that cannot
    encode it the [print] of the warning raises inside the [try] block. After
    a successful training with an AUC-ROC below 0.75 the run then ends with
    status 1: [export_model] is not reached, no directory is made and no
    document is written, and nothing is printed after the lines of the
    training but, where it can be encoded, the error. *)
Theorem quality_warning_stops_the_export
  (host : Terminal.Host) (lib : Library) (env : Env) (args : Args)
  (w w1 w2 : World) (X : DataFrame) (y : Series) (res : Results.t) :
  Terminal.load_data host env (data args) w = (inr (X, y), w1) ->
  Terminal.train_model host lib env X y (test_size args) w1 = (inr res, w2) ->
  (Results.auc_roc res <? 0.75)%float = true ->
  Terminal.encodes host WarningBelowThreshold = false ->
  exists w',
    Terminal.main host lib env args w = (1%Z, w') /\
    Terminal.main_try host lib env args w = (inl UnicodeEncodeError, w2) /\
    files w' = files w /\
    dirs w' = dirs w /\
    (stdout w' = stdout w2 \/
     stdout w' = stdout w2 ++ [ErrorLine UnicodeEncodeError]).
Proof.
  intros Hload Htrain Hlow Henc.
  destruct (quiet_run _ _ _ _ (Terminal_load_data_quiet host env (data args)) Hload)
    as (_ & Hd1 & Hf1).
  destruct (quiet_run _ _ _ _
              (Terminal_train_model_quiet host lib env X y (test_size args)) Htrain)
    as (_ & Hd2 & Hf2).
  assert (Terminal.main_try host lib env args w = (inl UnicodeEncodeError, w2))
    as Htry.
  { unfold Terminal.main_try.
    rewrite (bind_step _ _ _ _ _ Hload). simpl.
    rewrite (bind_step _ _ _ _ _ Htrain).
    apply bind_raise. unfold Terminal.check_requirements. rewrite Hlow.
    apply bind_raise. by apply Terminal_print_fails. }
  unfold Terminal.main. rewrite Htry.
  eexists. split; [reflexivity|]. split; [done|].
  unfold Terminal.print.
  destruct (Terminal.encodes host (ErrorLine UnicodeEncodeError)) eqn:He; simpl.
  - split_and!; [congruence|congruence|by right].
  - split_and!; [congruence|congruence|by left].
Qed.

Lemma TerminalDemo_loaded :
  Terminal.load_data TerminalDemo.ascii Demo.env (data Demo.args) Demo.start
  = (inr (Demo.X, Demo.y), Demo.after_loading).
Proof. vm_compute. reflexivity. Defined.

Lemma TerminalDemo_trained :
  Terminal.train_model TerminalDemo.ascii Demo.lib Demo.env Demo.X Demo.y
    (test_size Demo.args) Demo.after_loading
  = (inr Demo.results, Demo.after_training).
Proof. vm_compute. reflexivity. Defined.

Lemma quality_warning_stops_the_export_witness :
  exists w',
    Terminal.main TerminalDemo.ascii Demo.lib Demo.env Demo.args Demo.start
      = (1%Z, w') /\
    Terminal.main_try TerminalDemo.ascii Demo.lib Demo.env Demo.args Demo.start
      = (inl UnicodeEncodeError, Demo.after_training) /\
    files w' = files Demo.start /\
    dirs w' = dirs Demo.start /\
    (stdout w' = stdout Demo.after_training \/
     stdout w' = stdout Demo.after_training ++ [ErrorLine UnicodeEncodeError]).
Proof.
  apply (quality_warning_stops_the_export TerminalDemo.ascii Demo.lib Demo.env
           Demo.args Demo.start Demo.after_loading Demo.after_training
           Demo.X Demo.y Demo.results TerminalDemo_loaded TerminalDemo_trained).
  - vm_compute. reflexivity.
  - reflexivity.
Defined.

(** ** Documents and exit status *)

(** X1. What a run has written when it ends, on any standard output (making
    a directory and writing a file are taken not to fail). A run that ends
    with status 0 has written both documents of the output directory, and
    nothing else. A run that ends with status 1 has written nothing; or the
    weights document only, and then the message that follows that write
    cannot be encoded; or both documents, and then one of the three messages
    that follow cannot be encoded. The metrics document is never written
    without the weights document. *)
Theorem documents_written_and_exit_status
  (host : Terminal.Host) (lib : Library) (env : Env) (args : Args) (w : World) :
  let run := Terminal.main host lib env args w in
  (run.1 = 0%Z /\ with_both (output args) (files w) (files run.2)) \/
  (run.1 = 1%Z /\
   (files run.2 = files w \/
    (with_weights (output args) (files w) (files run.2) /\
     Terminal.encodes host (WeightsSaved (output args) "model_weights.json")
     = false) \/
    (with_both (output args) (files w) (files run.2) /\
     (Terminal.encodes host (MetricsSaved (output args) "model_metrics.json")
      = false \/
      Terminal.encodes host TrainingComplete = false \/
      Terminal.encodes host (IntegrationSteps (output args)) = false)))).
Proof.
  intros run. subst run. unfold Terminal.main.
  destruct (Terminal_main_try_outcome host lib env args w)
    as (r & w' & -> & _ & [(-> & Hboth & _)|(e & -> & Hcases)]).
  - by left.
  - right. simpl. split; [done|].
    pose proof (Terminal_print_quiet host (ErrorLine e) w') as (_ & _ & Hq).
    rewrite Hq. exact Hcases.
Qed.

(** X5. The exit status of a run and its output, on any standard output.
    Every run only adds lines to the output. A run that ends with status 0
    has printed the integration steps for the output directory as its last
    line. A run that ends with status 1 was stopped by an exception in the
    [try] block: its last line is the error for that exception when the
    error can be encoded, and otherwise nothing is printed after the
    exception. *)
Theorem exit_status_and_last_line
  (host : Terminal.Host) (lib : Library) (env : Env) (args : Args) (w : World) :
  let run := Terminal.main host lib env args w in
  exists lines,
    stdout run.2 = stdout w ++ lines /\
    ((run.1 = 0%Z /\ last lines = Some (IntegrationSteps (output args))) \/
     (run.1 = 1%Z /\
      exists e w',
        Terminal.main_try host lib env args w = (inl e, w') /\
        if Terminal.encodes host (ErrorLine e)
        then last lines = Some (ErrorLine e)
        else stdout run.2 = stdout w')).
Proof.
  intros run. subst run. unfold Terminal.main.
  destruct (Terminal_main_try_outcome host lib env args w)
    as (r & w' & Htry & [lines Hlines]
        & [(-> & _ & w0 & [lines0 Hlines0] & ->)|(e & -> & _)]);
    rewrite Htry; simpl.
  - exists (lines0 ++ [IntegrationSteps (output args)]).
    rewrite Hlines0, app_assoc. split; [done|]. left. split; [done|].
    by rewrite last_snoc.
  - unfold Terminal.print.
    destruct (Terminal.encodes host (ErrorLine e)) eqn:He; simpl.
    + exists (lines ++ [ErrorLine e]). rewrite Hlines, app_assoc.
      split; [done|]. right. split; [done|]. exists e, w'.
      split; [done|]. rewrite He. by rewrite last_snoc.
    + exists lines. split; [done|]. right. split; [done|]. exists e, w'.
      split; [done|]. by rewrite He.
Qed.



(** ** Loading, on any host *)

(** X2. What [load_data] returns is what the file holds: [X] has the thirteen
    feature columns, each as it is in the file, and no other column (no
    label, no additional column); [y] is the label column of the file. It
    has printed its two lines, the second with the number of rows and the
    two counts pandas computed from the label column, and touched no
    directory or file. *)
Theorem load_data_returns_file_columns
  (host : Terminal.Host) (env : Env) (filepath : string) (w w1 : World)
  (X : DataFrame) (y : Series) :
  Terminal.load_data host env filepath w = (inr (X, y), w1) ->
  exists df counts,
    read_csv env filepath = inr df /\
    columns X = feature_cols /\
    (forall c, c ∈ feature_cols -> getitem X c = getitem df c) /\
    (forall c, c ∉ feature_cols -> getitem X c = inl (KeyError c)) /\
    getitem df "is_rug_pull" = inr y /\
    Terminal.label_counts host y = inr counts /\
    stdout w1
    = stdout w ++ [ LoadingData filepath;
                    LoadedSamples (nrows df) counts.1 counts.2 ] /\
    dirs w1 = dirs w /\ files w1 = files w.
Proof.
  unfold Terminal.load_data. intros H.
  apply bind_inr in H as ([] & w0 & [_ ->]%Terminal_print_inr & H).
  apply bind_inr in H as (df & ? & [Hread ->]%call_inr & H).
  case_decide as Hmiss; [done|].
  apply bind_inr in H as (X' & ? & [HX ->]%call_inr & H).
  apply bind_inr in H as (y' & ? & [Hy ->]%call_inr & H).
  apply bind_inr in H as (counts & ? & [Hcounts ->]%call_inr & H).
  apply bind_inr in H as ([] & w2 & [_ ->]%Terminal_print_inr & H).
  injection H as <- <- <-.
  pose proof (getitems_columns _ _ _ HX) as Hcols.
  exists df, counts. split_and!; try done.
  - intros c Hc. by eapply getitems_getitem.
  - intros c Hc. apply getitem_absent. by rewrite Hcols.
  - simpl. by rewrite <- app_assoc.
Qed.

Lemma load_data_returns_file_columns_witness :
  exists df counts,
    read_csv Demo.env (data Demo.args) = inr df /\
    columns Demo.X = feature_cols /\
    (forall c, c ∈ feature_cols -> getitem Demo.X c = getitem df c) /\
    (forall c, c ∉ feature_cols -> getitem Demo.X c = inl (KeyError c)) /\
    getitem df "is_rug_pull" = inr Demo.y /\
    Terminal.label_counts TerminalDemo.ascii Demo.y = inr counts /\
    stdout Demo.after_loading
    = stdout Demo.start
        ++ [ LoadingData (data Demo.args);
             LoadedSamples (nrows df) counts.1 counts.2 ] /\
    dirs Demo.after_loading = dirs Demo.start /\
    files Demo.after_loading = files Demo.start.
Proof.
  exact (load_data_returns_file_columns TerminalDemo.ascii Demo.env
           (data Demo.args) Demo.start Demo.after_loading Demo.X Demo.y
           TerminalDemo_loaded).
Defined.

(** X3. [load_data] raises in these cases only. Its first line cannot be
    encoded: nothing is printed. Otherwise the first line is printed and
    nothing else, and: [pd.read_csv] raised, and that error passes through;
    or a required column is absent, and the error names the absent ones; or
    every required column is there and the arithmetic of pandas on the label
    column raised (a label column that is not numeric), and that error passes
    through; or the second line cannot be encoded. Selecting the columns
    never raises a [KeyError]. *)
Theorem load_data_raises_in_these_cases_only
  (host : Terminal.Host) (env : Env) (filepath : string) (w w1 : World)
  (e : Exception) :
  Terminal.load_data host env filepath w = (inl e, w1) ->
  (e = UnicodeEncodeError /\
   Terminal.encodes host (LoadingData filepath) = false /\ w1 = w) \/
  (Terminal.encodes host (LoadingData filepath) = true /\
   w1 = emit [LoadingData filepath] w /\
   (read_csv env filepath = inl e \/
    (exists df,
        read_csv env filepath = inr df /\
        e = MissingRequiredColumns
              (list_to_set required_cols ∖ list_to_set (columns df)) /\
        exists c, c ∈ required_cols /\ c ∉ columns df) \/
    (exists df y,
        read_csv env filepath = inr df /\
        (forall c, c ∈ required_cols -> c ∈ columns df) /\
        getitem df "is_rug_pull" = inr y /\
        (Terminal.label_counts host y = inl e \/
         exists counts,
           Terminal.label_counts host y = inr counts /\
           e = UnicodeEncodeError /\
           Terminal.encodes host (LoadedSamples (nrows df) counts.1 counts.2)
           = false)))).
Proof.
  unfold Terminal.load_data. intros H.
  destruct (Terminal.encodes host (LoadingData filepath)) eqn:Hfirst.
  2:{ rewrite (bind_raise _ _ _ _ _ (Terminal_print_fails _ _ w Hfirst)) in H.
      injection H as <- <-. by left. }
  right. split; [done|].
  rewrite (bind_step _ _ _ _ _ (Terminal_print_ok _ _ w Hfirst)) in H.
  destruct (read_csv env filepath) as [e'|df] eqn:Hread.
  { unfold mbind, IO_bind, call in H. injection H as <- <-. auto. }
  unfold mbind at 1, IO_bind at 1, call at 1 in H.
  case_decide as Hmiss.
  { injection H as <- <-. split; [done|]. right. left. exists df.
    split_and!; [done..|].
    destruct (decide (Exists (fun c => c ∉ columns df) required_cols))
      as [Hex|Hnex].
    - apply Exists_exists in Hex as (c & ? & ?). eauto.
    - exfalso. apply Hmiss, missing_empty_iff. intros (c & Hc & Hn).
      apply Hnex, Exists_exists. eauto. }
  assert (forall c, c ∈ required_cols -> c ∈ columns df) as Hall.
  { intros c Hc. destruct (decide (c ∈ columns df)) as [|Hn]; [done|].
    exfalso. apply missing_empty_iff in Hmiss. eauto. }
  destruct (getitems_total df feature_cols) as [X HX].
  { intros c Hc. apply Hall. by eapply feature_cols_required. }
  destruct (getitem_total df "is_rug_pull") as [y Hy].
  { apply Hall. by apply (list_elem_of_lookup_2 _ 13). }
  rewrite HX, Hy in H.
  unfold mbind at 1 2, IO_bind at 1 2, call at 1 2 in H.
  destruct (Terminal.label_counts host y) as [e'|counts] eqn:Hcounts.
  { unfold mbind, IO_bind, call in H. injection H as <- <-.
    split; [done|]. right. right. exists df, y. auto. }
  unfold mbind at 1, IO_bind at 1, call at 1 in H.
  destruct (Terminal.encodes host (LoadedSamples (nrows df) counts.1 counts.2))
    eqn:Hsecond.
  { rewrite (bind_step _ _ _ _ _ (Terminal_print_ok _ _ _ Hsecond)) in H.
    done. }
  rewrite (bind_raise _ _ _ _ _ (Terminal_print_fails _ _ _ Hsecond)) in H.
  injection H as <- <-. split; [done|]. right. right. exists df, y.
  split_and!; [done..|]. right. exists counts. auto.
Qed.

Lemma load_data_raises_in_these_cases_only_witness :
  (MissingRequiredColumns
     (list_to_set required_cols ∖ list_to_set (columns Demo.short_table))
   = UnicodeEncodeError /\
   Terminal.encodes TerminalDemo.ascii (LoadingData "short.csv") = false /\
   emit [LoadingData "short.csv"] Demo.start = Demo.start) \/
  (Terminal.encodes TerminalDemo.ascii (LoadingData "short.csv") = true /\
   emit [LoadingData "short.csv"] Demo.start
   = emit [LoadingData "short.csv"] Demo.start /\
   (read_csv Demo.env "short.csv"
    = inl (MissingRequiredColumns
             (list_to_set required_cols ∖ list_to_set (columns Demo.short_table))) \/
    (exists df,
        read_csv Demo.env "short.csv" = inr df /\
        MissingRequiredColumns
          (list_to_set required_cols ∖ list_to_set (columns Demo.short_table))
        = MissingRequiredColumns
            (list_to_set required_cols ∖ list_to_set (columns df)) /\
        exists c, c ∈ required_cols /\ c ∉ columns df) \/
    (exists df y,
        read_csv Demo.env "short.csv" = inr df /\
        (forall c, c ∈ required_cols -> c ∈ columns df) /\
        getitem df "is_rug_pull" = inr y /\
        (Terminal.label_counts TerminalDemo.ascii y
         = inl (MissingRequiredColumns
                  (list_to_set required_cols
                     ∖ list_to_set (columns Demo.short_table))) \/
         exists counts,
           Terminal.label_counts TerminalDemo.ascii y = inr counts /\
           MissingRequiredColumns
             (list_to_set required_cols ∖ list_to_set (columns Demo.short_table))
           = UnicodeEncodeError /\
           Terminal.encodes TerminalDemo.ascii
             (LoadedSamples (nrows df) counts.1 counts.2)
           = false)))).
Proof.
  apply (load_data_raises_in_these_cases_only TerminalDemo.ascii Demo.env
           "short.csv" Demo.start).
  vm_compute. reflexivity.
Defined.


(** * scripts/auto_confirm.py

    The release check: per phase, the expected files must exist and the test
    commands must succeed. The machine it runs on is a parameter: a state
    [Disk], whether a path exists on it, and what running a shell command
    returns and does to it. The commands run are logged with their return
    codes, in order. *)

Module AutoConfirm.

Record Checks := {
  files : list string;
  tests : list string;
  health : option string
}.

Definition PHASE_CRITERIA : list (string * Checks) :=
  [ ("1", {| files := ["src-tauri/src/auth.rs"; "src/components/WalletConnect.tsx"];
             tests := ["cargo test --lib auth"; "npm test WalletConnect"];
             health := Some "curl -s http://localhost:3000/api/health" |});
    ("2", {| files := ["src-tauri/src/jupiter.rs"; "src/pages/Trading.tsx"];
             tests := ["cargo test --lib jupiter"; "npm test TradingPage"];
             health := None |}) ].

(** [sys.exit(message)]: the message goes to the error output and the
    process ends with status 1. *)
Inductive SystemExit :=
  | MissingFiles (phase : string)
  | TestsFailed (phase : string).

Section Machine.
Variable Disk : Type.
(** [Path(f).exists()] *)
Variable path_exists : Disk -> string -> bool.
(** [subprocess.run(test, shell=True, check=False)]: the return code and the
    machine afterwards. *)
Variable subprocess_run : string -> Disk -> Z * Disk.

Record Machine := {
  disk : Disk;
  ran : list (string * Z)
}.

(** The inner loop over [checks["tests"]]. *)
Fixpoint run_tests (phase : string) (commands : list string) (m : Machine) :
  (SystemExit + unit) * Machine :=
  match commands with
  | [] => (inr (), m)
  | test :: commands' =>
      let result := subprocess_run test (disk m) in
      let m' := {| disk := result.2; ran := ran m ++ [(test, result.1)] |} in
      if decide (result.1 ≠ 0%Z) then (inl (TestsFailed phase), m')
      else run_tests phase commands' m'
  end.

(** The loop over [PHASE_CRITERIA.items()]. *)
Fixpoint check_phases (criteria : list (string * Checks)) (m : Machine) :
  (SystemExit + unit) * Machine :=
  match criteria with
  | [] => (inr (), m)
  | (phase, checks) :: criteria' =>
      if negb (forallb (path_exists (disk m)) (files checks))
      then (inl (MissingFiles phase), m)
      else
        match run_tests phase (tests checks) m with
        | (inl e, m') => (inl e, m')
        | (inr _, m') => check_phases criteria' m'
        end
  end.

Definition silent_check (m : Machine) : (SystemExit + unit) * Machine :=
  check_phases PHASE_CRITERIA m.

(** The script from the start of the process to its exit status. *)
Definition script (d : Disk) : Z * Machine :=
  match silent_check {| disk := d; ran := [] |} with
  | (inl _, m) => (1%Z, m)
  | (inr _, m) => (0%Z, m)
  end.

(** What a run of some checks has logged. A normal return: every test of
    every phase, each with return code 0. A failure of tests: the last
    command is a test of the phase and did not return 0, the ones before
    did. Missing files: the tests of the phases before, each with return code
    0, and a file of the phase that is not on the disk. *)
Definition log_of (criteria : list (string * Checks))
  (r : SystemExit + unit) (m : Machine) (new : list (string * Z)) : Prop :=
  match r with
  | inr _ =>
      new.*1 = concat (tests <$> criteria.*2) /\ Forall (fun cr => cr.2 = 0%Z) new
  | inl (TestsFailed phase) =>
      exists passed test code checks,
        new = passed ++ [(test, code)] /\ code ≠ 0%Z /\
        Forall (fun cr => cr.2 = 0%Z) passed /\
        (phase, checks) ∈ criteria /\ test ∈ tests checks
  | inl (MissingFiles phase) =>
      exists before checks after f,
        criteria = before ++ (phase, checks) :: after /\
        new.*1 = concat (tests <$> before.*2) /\
        Forall (fun cr => cr.2 = 0%Z) new /\
        f ∈ files checks /\ path_exists (disk m) f = false
  end.
End Machine.
End AutoConfirm.

Arguments AutoConfirm.Build_Machine {Disk}.
Arguments AutoConfirm.disk {Disk}.
Arguments AutoConfirm.ran {Disk}.
Arguments AutoConfirm.run_tests {Disk}.
Arguments AutoConfirm.check_phases {Disk}.
Arguments AutoConfirm.silent_check {Disk}.
Arguments AutoConfirm.script {Disk}.
Arguments AutoConfirm.log_of {Disk}.

Section AutoConfirmFacts.
Import AutoConfirm.
Context {Disk : Type}.
Variable path_exists : Disk -> string -> bool.
Variable subprocess_run : string -> Disk -> Z * Disk.

Lemma run_tests_log phase commands (m : Machine Disk) :
  exists new,
    ran (run_tests subprocess_run phase commands m).2 = ran m ++ new /\
    new.*1 `prefix_of` commands /\
    match (run_tests subprocess_run phase commands m).1 with
    | inr _ => new.*1 = commands /\ Forall (fun cr => cr.2 = 0%Z) new
    | inl e =>
        e = TestsFailed phase /\
        exists passed test code,
          new = passed ++ [(test, code)] /\ code ≠ 0%Z /\
          Forall (fun cr => cr.2 = 0%Z) passed /\ test ∈ commands
    end.
Proof.
  revert m. induction commands as [|test commands IH]; intros m; simpl.
  - exists []. rewrite app_nil_r. split_and!; try done.
  - case_decide as Hcode.
    + exists [(test, (subprocess_run test (disk m)).1)]. simpl.
      split_and!; [done|by apply prefix_cons, prefix_nil|done|].
      exists [], test, (subprocess_run test (disk m)).1.
      split_and!; try done. left.
    + destruct (IH {| disk := (subprocess_run test (disk m)).2;
                      ran := ran m ++ [(test, (subprocess_run test (disk m)).1)] |})
        as (new & Hran & Hpre & Hres).
      simpl in Hran.
      exists ((test, (subprocess_run test (disk m)).1) :: new).
      split_and!.
      * rewrite Hran, <- app_assoc. done.
      * simpl. by apply prefix_cons.
      * destruct (run_tests _ _ _ _).1 as [e|[]].
        -- destruct Hres as (-> & passed & t & code & -> & ? & ? & ?).
           split; [done|].
           exists ((test, (subprocess_run test (disk m)).1) :: passed), t, code.
           split_and!; try done; [by constructor|by right].
        -- destruct Hres as [Heq Hzero].
           split; [by rewrite fmap_cons, Heq|by constructor].
Qed.

Lemma forallb_false {A} (f : A -> bool) (l : list A) :
  forallb f l = false -> exists x, x ∈ l /\ f x = false.
Proof.
  induction l as [|x l IH]; simpl; [done|].
  destruct (f x) eqn:Hx; simpl.
  - intros (y & ? & ?)%IH. exists y. split; [by right|done].
  - intros _. exists x. split; [left|done].
Qed.

Lemma check_phases_log criteria (m : Machine Disk) :
  exists new,
    ran (check_phases path_exists subprocess_run criteria m).2
      = ran m ++ new /\
    new.*1 `prefix_of` concat (tests <$> criteria.*2) /\
    log_of path_exists criteria
      (check_phases path_exists subprocess_run criteria m).1
      (check_phases path_exists subprocess_run criteria m).2 new.
Proof.
  revert m. induction criteria as [|[phase checks] criteria IH]; intros m; simpl.
  - exists []. rewrite app_nil_r. split_and!; try done.
  - destruct (forallb _ _) eqn:Hfiles; simpl.
    + destruct (run_tests_log phase (tests checks) m)
        as (new1 & Hran1 & Hpre1 & Hres1).
      destruct (run_tests _ _ _ _) as [[e|[]] m1]; simpl in *.
      * destruct Hres1 as (-> & passed & test & code & -> & ? & ? & ?).
        exists (passed ++ [(test, code)]). split_and!; [done| |].
        -- by apply prefix_app_r.
        -- exists passed, test, code, checks. split_and!; try done. left.
      * destruct Hres1 as [Heq Hzero].
        destruct (IH m1) as (new2 & Hran2 & Hpre2 & Hres2).
        exists (new1 ++ new2). split_and!.
        -- by rewrite Hran2, Hran1, app_assoc.
        -- rewrite fmap_app, Heq. by apply prefix_app.
        -- destruct (check_phases _ _ _ _).1 as [[p|p]|[]]; simpl in *.
           ++ destruct Hres2 as (before & checks' & after & f & -> & Hnew & Hz & ? & ?).
              exists ((phase, checks) :: before), checks', after, f.
              split_and!; try done.
              ** rewrite fmap_app, Heq, Hnew. done.
              ** by apply Forall_app.
           ++ destruct Hres2 as (passed & test & code & checks' & -> & ? & ? & ? & ?).
              exists (new1 ++ passed), test, code, checks'.
              split_and!; try done.
              ** by rewrite app_assoc.
              ** by apply Forall_app.
              ** by right.
           ++ destruct Hres2 as [Hnew Hz]. split.
              ** by rewrite fmap_app, Heq, Hnew.
              ** by apply Forall_app.
    + apply forallb_false in Hfiles as (f & Hf & Hno).
      exists []. rewrite app_nil_r. split_and!; [done|apply prefix_nil|].
      exists [], checks, criteria, f. split_and!; try done.
Qed.
End AutoConfirmFacts.

Lemma prefix_take {A} (l k : list A) : l `prefix_of` k -> l = take (length l) k.
Proof. intros [k' ->]. by rewrite take_app_length. Qed.

Lemma silent_check_log {Disk : Type} (path_exists : Disk -> string -> bool)
  (subprocess_run : string -> Disk -> Z * Disk) (d : Disk) :
  let run := AutoConfirm.silent_check path_exists subprocess_run
               {| AutoConfirm.disk := d; AutoConfirm.ran := [] |} in
  (AutoConfirm.ran run.2).*1
    `prefix_of` [ "cargo test --lib auth"; "npm test WalletConnect";
                  "cargo test --lib jupiter"; "npm test TradingPage" ] /\
  AutoConfirm.log_of path_exists AutoConfirm.PHASE_CRITERIA run.1 run.2
    (AutoConfirm.ran run.2).
Proof.
  intros run.
  destruct (check_phases_log path_exists subprocess_run
              AutoConfirm.PHASE_CRITERIA
              {| AutoConfirm.disk := d; AutoConfirm.ran := [] |})
    as (new & Hran & Hpre & Hlog).
  change (AutoConfirm.ran
            (AutoConfirm.silent_check path_exists subprocess_run
               {| AutoConfirm.disk := d; AutoConfirm.ran := [] |}).2 = new)
    in Hran.
  subst run. rewrite Hran. split; [exact Hpre|exact Hlog].
Qed.

(** X9. Whatever the machine, the release check runs test commands only, in
    the order they are listed (the tests of phase 1, then those of phase 2),
    without skipping any: what it has run is a first part of that list. The
    health command of phase 1 is never run. *)
Theorem release_check_runs_listed_tests_in_order
  {Disk : Type} (path_exists : Disk -> string -> bool)
  (subprocess_run : string -> Disk -> Z * Disk) (d : Disk) :
  let commands :=
    (AutoConfirm.ran (AutoConfirm.script path_exists subprocess_run d).2).*1 in
  (exists k,
      commands = take k [ "cargo test --lib auth"; "npm test WalletConnect";
                          "cargo test --lib jupiter"; "npm test TradingPage" ]) /\
  "curl -s http://localhost:3000/api/health" ∉ commands.
Proof.
  intros commands.
  destruct (silent_check_log path_exists subprocess_run d) as [Hpre _].
  assert (commands
          = (AutoConfirm.ran
               (AutoConfirm.silent_check path_exists subprocess_run
                  {| AutoConfirm.disk := d; AutoConfirm.ran := [] |}).2).*1)
    as Hcommands.
  { subst commands. unfold AutoConfirm.script.
    by destruct (AutoConfirm.silent_check _ _ _) as [[?|?] ?]. }
  rewrite <- Hcommands in Hpre. split.
  - eexists. by apply prefix_take.
  - intros Hin. destruct Hpre as [rest Hrest].
    assert ("curl -s http://localhost:3000/api/health"
            ∈ [ "cargo test --lib auth"; "npm test WalletConnect";
                "cargo test --lib jupiter"; "npm test TradingPage" ]) as Hbad.
    { rewrite Hrest. apply elem_of_app. by left. }
    revert Hbad. apply (bool_decide_unpack _). by vm_compute.
Qed.

(** X10. The release check ends with status 0 only when all four test
    commands have been run, in order, and each has returned 0; otherwise it
    ends with status 1. *)
Theorem release_check_passes_only_when_every_test_passes
  {Disk : Type} (path_exists : Disk -> string -> bool)
  (subprocess_run : string -> Disk -> Z * Disk) (d : Disk) :
  ((AutoConfirm.script path_exists subprocess_run d).1 = 0%Z /\
   AutoConfirm.ran (AutoConfirm.script path_exists subprocess_run d).2
   = [ ("cargo test --lib auth", 0%Z); ("npm test WalletConnect", 0%Z);
       ("cargo test --lib jupiter", 0%Z); ("npm test TradingPage", 0%Z) ]) \/
  (AutoConfirm.script path_exists subprocess_run d).1 = 1%Z.
Proof.
  destruct (silent_check_log path_exists subprocess_run d) as [_ Hlog].
  unfold AutoConfirm.script.
  destruct (AutoConfirm.silent_check _ _ _) as [[e|[]] m]; simpl in *;
    [by right|left].
  split; [done|]. destruct Hlog as [Hcommands Hzero].
  destruct (AutoConfirm.ran m) as [|[c1 r1] [|[c2 r2] [|[c3 r3] [|[c4 r4] [|? l]]]]];
    simplify_eq/=.
  repeat match goal with H : Forall _ (_ :: _) |- _ =>
           apply Forall_cons in H as [? H] end.
  simplify_eq/=. done.
Qed.

(** X11. When the release check stops because tests failed, the command it
    has run last is a test of the phase it names and did not return 0, and
    every command run before it returned 0: nothing is run after the first
    failing test. *)
Theorem release_check_stops_at_first_failing_test
  {Disk : Type} (path_exists : Disk -> string -> bool)
  (subprocess_run : string -> Disk -> Z * Disk) (d : Disk)
  (phase : string) (m : AutoConfirm.Machine Disk) :
  AutoConfirm.silent_check path_exists subprocess_run
    {| AutoConfirm.disk := d; AutoConfirm.ran := [] |}
  = (inl (AutoConfirm.TestsFailed phase), m) ->
  exists passed test code,
    AutoConfirm.ran m = passed ++ [(test, code)] /\
    code ≠ 0%Z /\
    Forall (fun cr => cr.2 = 0%Z) passed /\
    ((phase = "1" /\
      test ∈ ["cargo test --lib auth"; "npm test WalletConnect"]) \/
     (phase = "2" /\
      test ∈ ["cargo test --lib jupiter"; "npm test TradingPage"])).
Proof.
  intros Hrun.
  destruct (silent_check_log path_exists subprocess_run d) as [_ Hlog].
  rewrite Hrun in Hlog. simpl in Hlog.
  destruct Hlog as (passed & test & code & checks & Hran & Hcode & Hzero & Hin & Htest).
  exists passed, test, code. split_and!; try done.
  unfold AutoConfirm.PHASE_CRITERIA in Hin.
  apply elem_of_cons in Hin as [Hin|Hin]; [left; by simplify_eq/=|].
  apply elem_of_cons in Hin as [Hin|Hin]; [right; by simplify_eq/=|].
  by apply elem_of_nil in Hin.
Qed.

(** X12. When the release check stops because files are missing, a file
    listed for the phase it names is not on the disk, and no test of that
    phase or of a later one has been run: nothing at all for phase 1, the two
    tests of phase 1, both returning 0, for phase 2. *)
Theorem release_check_runs_no_test_of_a_phase_with_missing_files
  {Disk : Type} (path_exists : Disk -> string -> bool)
  (subprocess_run : string -> Disk -> Z * Disk) (d : Disk)
  (phase : string) (m : AutoConfirm.Machine Disk) :
  AutoConfirm.silent_check path_exists subprocess_run
    {| AutoConfirm.disk := d; AutoConfirm.ran := [] |}
  = (inl (AutoConfirm.MissingFiles phase), m) ->
  (phase = "1" /\
   AutoConfirm.ran m = [] /\
   exists f,
     f ∈ ["src-tauri/src/auth.rs"; "src/components/WalletConnect.tsx"] /\
     path_exists (AutoConfirm.disk m) f = false) \/
  (phase = "2" /\
   AutoConfirm.ran m
   = [("cargo test --lib auth", 0%Z); ("npm test WalletConnect", 0%Z)] /\
   exists f,
     f ∈ ["src-tauri/src/jupiter.rs"; "src/pages/Trading.tsx"] /\
     path_exists (AutoConfirm.disk m) f = false).
Proof.
  intros Hrun.
  destruct (silent_check_log path_exists subprocess_run d) as [_ Hlog].
  rewrite Hrun in Hlog. simpl in Hlog.
  destruct Hlog as (before & checks & after & f & Hsplit & Hran & Hzero & Hf & Hno).
  unfold AutoConfirm.PHASE_CRITERIA in Hsplit.
  destruct before as [|b1 [|b2 [|b3 before]]]; simplify_eq/=.
  - left. split; [done|]. split; [|by eauto].
    by destruct (AutoConfirm.ran m).
  - right. split; [done|]. split; [|by eauto].
    destruct (AutoConfirm.ran m) as [|[c1 r1] [|[c2 r2] [|? l]]]; simplify_eq/=.
    repeat match goal with H : Forall _ (_ :: _) |- _ =>
             apply Forall_cons in H as [? H] end.
    simplify_eq/=. done.
Qed.

(** A machine to run the check on: the disk is the list of the paths it
    holds; every command succeeds but the second test of phase 1. *)
Module MachineDemo.
Definition path_exists (d : list string) (f : string) : bool :=
  bool_decide (f ∈ d).

Definition subprocess_run (command : string) (d : list string) :
  Z * list string :=
  (if decide (command = "npm test WalletConnect") then 1%Z else 0%Z,
   d ++ ["target/" ++ command ++ ".log"]%string).

Definition checkout : list string :=
  [ "src-tauri/src/auth.rs"; "src/components/WalletConnect.tsx";
    "src-tauri/src/jupiter.rs"; "src/pages/Trading.tsx" ].
End MachineDemo.

Lemma release_check_stops_at_first_failing_test_witness :
  exists passed test code,
    [("cargo test --lib auth", 0%Z); ("npm test WalletConnect", 1%Z)]
    = passed ++ [(test, code)] /\
    code ≠ 0%Z /\
    Forall (fun cr => cr.2 = 0%Z) passed /\
    (("1" = "1" /\
      test ∈ ["cargo test --lib auth"; "npm test WalletConnect"]) \/
     ("1" = "2" /\
      test ∈ ["cargo test --lib jupiter"; "npm test TradingPage"])).
Proof.
  apply (release_check_stops_at_first_failing_test
           MachineDemo.path_exists MachineDemo.subprocess_run
           MachineDemo.checkout "1"
           {| AutoConfirm.disk :=
                MachineDemo.checkout
                  ++ ["target/cargo test --lib auth.log";
                      "target/npm test WalletConnect.log"];
              AutoConfirm.ran :=
                [("cargo test --lib auth", 0%Z);
                 ("npm test WalletConnect", 1%Z)] |}).
  vm_compute. reflexivity.
Defined.

Lemma release_check_runs_no_test_of_a_phase_with_missing_files_witness :
  ("1" = "1" /\
   @nil (string * Z) = [] /\
   exists f,
     f ∈ ["src-tauri/src/auth.rs"; "src/components/WalletConnect.tsx"] /\
     MachineDemo.path_exists ["src-tauri/src/auth.rs"] f = false) \/
  ("1" = "2" /\
   @nil (string * Z)
   = [("cargo test --lib auth", 0%Z); ("npm test WalletConnect", 0%Z)] /\
   exists f,
     f ∈ ["src-tauri/src/jupiter.rs"; "src/pages/Trading.tsx"] /\
     MachineDemo.path_exists ["src-tauri/src/auth.rs"] f = false).
Proof.
  apply (release_check_runs_no_test_of_a_phase_with_missing_files
           MachineDemo.path_exists MachineDemo.subprocess_run
           ["src-tauri/src/auth.rs"] "1"
           {| AutoConfirm.disk := ["src-tauri/src/auth.rs"];
              AutoConfirm.ran := [] |}).
  vm_compute. reflexivity.
Defined.

Section HealthyMachine.
Context {Disk : Type}.
Variable path_exists : Disk -> string -> bool.
Variable subprocess_run : string -> Disk -> Z * Disk.
Hypothesis every_command_succeeds :
  forall command d, (subprocess_run command d).1 = 0%Z.

Lemma run_tests_all_pass phase commands (m : AutoConfirm.Machine Disk) :
  (AutoConfirm.run_tests subprocess_run phase commands m).1 = inr ().
Proof.
  revert m. induction commands as [|test commands IH]; intros m; simpl; [done|].
  case_decide as Hcode; [|apply IH].
  by rewrite every_command_succeeds in Hcode.
Qed.

Lemma check_phases_all_pass criteria (m : AutoConfirm.Machine Disk) :
  (forall d phase checks f,
      (phase, checks) ∈ criteria -> f ∈ AutoConfirm.files checks ->
      path_exists d f = true) ->
  (AutoConfirm.check_phases path_exists subprocess_run criteria m).1 = inr ().
Proof.
  revert m. induction criteria as [|[phase checks] criteria IH]; intros m Hfiles;
    simpl; [done|].
  assert (forallb (path_exists (AutoConfirm.disk m)) (AutoConfirm.files checks)
          = true) as ->.
  { apply forallb_forall. intros f Hf%list_elem_of_In.
    apply (Hfiles _ phase checks f); [left|done]. }
  simpl. pose proof (run_tests_all_pass phase (AutoConfirm.tests checks) m) as Hrun.
  destruct (AutoConfirm.run_tests _ _ _ _) as [[e|[]] m1]; [done|].
  apply IH. intros d p c f Hin Hf. apply (Hfiles d p c f); [by right|done].
Qed.
End HealthyMachine.

(** X13. On a machine where the four listed files exist, whatever the test
    commands do to the disk, and where every command returns 0, the release
    check ends with status 0. *)
Theorem release_check_passes_on_healthy_checkout
  {Disk : Type} (path_exists : Disk -> string -> bool)
  (subprocess_run : string -> Disk -> Z * Disk) (d : Disk) :
  (forall command d', (subprocess_run command d').1 = 0%Z) ->
  (forall d' f,
      f ∈ [ "src-tauri/src/auth.rs"; "src/components/WalletConnect.tsx";
            "src-tauri/src/jupiter.rs"; "src/pages/Trading.tsx" ] ->
      path_exists d' f = true) ->
  (AutoConfirm.script path_exists subprocess_run d).1 = 0%Z.
Proof.
  intros Hrun Hfiles.
  pose proof (check_phases_all_pass path_exists subprocess_run Hrun
                AutoConfirm.PHASE_CRITERIA
                {| AutoConfirm.disk := d; AutoConfirm.ran := [] |}) as Hpass.
  unfold AutoConfirm.script, AutoConfirm.silent_check.
  destruct (AutoConfirm.check_phases _ _ _ _) as [[e|[]] m]; [|done].
  exfalso. assert (inl e = inr ()) as Hbad; [|done].
  apply Hpass. intros d' phase checks f Hin Hf. apply Hfiles.
  clear Hpass. unfold AutoConfirm.PHASE_CRITERIA in Hin.
  apply elem_of_cons in Hin as [Hin|Hin].
  { simplify_eq/=. apply elem_of_cons in Hf as [->|Hf]; [left|].
    apply elem_of_cons in Hf as [->|Hf]; [right; left|by apply elem_of_nil in Hf]. }
  apply elem_of_cons in Hin as [Hin|Hin]; [|by apply elem_of_nil in Hin].
  simplify_eq/=. apply elem_of_cons in Hf as [->|Hf]; [do 2 right; left|].
  apply elem_of_cons in Hf as [->|Hf]; [do 3 right; left|by apply elem_of_nil in Hf].
Qed.

Lemma release_check_passes_on_healthy_checkout_witness :
  (AutoConfirm.script (fun (d : list string) f => true)
     (fun command (d : list string) => (0%Z, command :: d)) []).1 = 0%Z.
Proof.
  apply (release_check_passes_on_healthy_checkout
           (fun (d : list string) f => true)
           (fun command (d : list string) => (0%Z, command :: d)) []).
  - intros command d'. reflexivity.
  - intros d' f _. reflexivity.
Defined.
